(** * Form Schema Engine: the checkbox field definitions

    A shallow embedding of [src/components/fields/CheckboxField.tsx] (both the
    single-checkbox definition and the checkbox-group definition that live
    under that path) together with the small part of the JavaScript run time,
    of zod and of react-hook-form that these definitions rely on. *)

From Stdlib Require Import NArith ZArith Lia.
From stdpp Require Import base option list strings gmap.

Set Default Proof Using "Type".
Local Set Warnings "-register-all".

(** ** JavaScript values *)

(** A JavaScript string is a sequence of UTF-16 code units; [.length] counts
    code units and [trim] works on them. *)
Definition code_unit := N.
Definition jsstring := list code_unit.

(** String literals of the source are ASCII; [js] reads one as code units. *)
Definition js (s : string) : jsstring :=
  map Ascii.N_of_ascii (String.list_ascii_of_string s).

(** Values that a configuration payload or a submitted value can be made of.
    Numbers are restricted to integers: the code under study never computes
    with them, it only tells them apart from the other kinds. *)
Inductive JsValue : Type :=
  | JUndefined
  | JNull
  | JBool (b : bool)
  | JNumber (n : Z)
  | JString (s : jsstring)
  | JArray (xs : list JsValue)
  | JObject (props : list (string * JsValue)).

(** Own properties of an object literal, in insertion order. *)
Fixpoint get (props : list (string * JsValue)) (key : string) : JsValue :=
  match props with
  | [] => JUndefined
  | (k, v) :: rest => if String.eqb k key then v else get rest key
  end.

(** [ToBoolean] of ECMA-262, as used by [if (...)]. *)
Definition ToBoolean (v : JsValue) : bool :=
  match v with
  | JUndefined | JNull => false
  | JBool b => b
  | JNumber n => negb (n =? 0)%Z
  | JString s => negb (bool_decide (s = []))
  | JArray _ | JObject _ => true
  end.

(** [v === s] for a string literal [s]: strict equality never converts. *)
Definition strict_equals_string (v : JsValue) (s : jsstring) : bool :=
  match v with
  | JString t => bool_decide (t = s)
  | _ => false
  end.

(** ** [String.prototype.trim] *)

(** WhiteSpace and LineTerminator code points of ECMA-262: TAB, LF, VT, FF, CR,
    SP, NBSP, U+1680, U+2000..U+200A, LS, PS, U+202F, U+205F, U+3000, BOM. *)
Definition is_white_space (c : code_unit) : bool :=
  ((9 <=? c) && (c <=? 13) || (c =? 32) || (c =? 160) || (c =? 5760)
   || (8192 <=? c) && (c <=? 8202) || (c =? 8232) || (c =? 8233)
   || (c =? 8239) || (c =? 8287) || (c =? 12288) || (c =? 65279))%N.

Fixpoint trimStart (s : jsstring) : jsstring :=
  match s with
  | [] => []
  | c :: rest => if is_white_space c then trimStart rest else s
  end.

Definition trimEnd (s : jsstring) : jsstring := rev (trimStart (rev s)).

Definition trim (s : jsstring) : jsstring := trimEnd (trimStart s).

(** ** Run-time state, exceptions and the evaluation monad *)

Definition ElementsType := string.

Definition loc := nat.

(** A placed field, as [construct] builds it: [{ id, type, extraAttributes }].
    [extraAttributes] holds a reference to an object, not the object. *)
Record FormElementInstance : Type := mkInstance {
  inst_id : jsstring;
  inst_type : ElementsType;
  inst_extraAttributes : loc;
}.

(** Modelled from the spec: the designer context is not in these files.
    Section 3, Designer Document: the ordered instances of the form being
    edited and the id of the selected one, if any. *)
Record Document : Type := mkDocument {
  instances : list FormElementInstance;
  selectedId : option jsstring;
}.

Record State : Type := mkState {
  heap : gmap loc JsValue;
  designer : Document;
}.

Inductive JsError : Type :=
  | TypeError
  | UnknownFieldType (tag : ElementsType).

Inductive Completion (A : Type) : Type :=
  | Normal (a : A)
  | Throw (e : JsError).
Arguments Normal {A} a.
Arguments Throw {A} e.

Definition M (A : Type) : Type := State -> Completion A * State.

Definition ret {A} (a : A) : M A := fun s => (Normal a, s).

Definition bind {A B} (m : M A) (k : A -> M B) : M B :=
  fun s =>
    match m s with
    | (Normal a, s') => k a s'
    | (Throw e, s') => (Throw e, s')
    end.

Definition throw {A} (e : JsError) : M A := fun s => (Throw e, s).

Notation "'let*' x ':=' m 'in' k" := (bind m (fun x => k))
  (at level 10, x name, m at level 100, k at level 200).

(** Reading through a reference.  A location that was never allocated reads as
    [undefined], like an [extraAttributes] that is missing. *)
Definition load (l : loc) : M JsValue :=
  fun s => (Normal (default JUndefined (heap s !! l)), s).

(** [new] object: the next unused location. *)
Definition alloc (v : JsValue) : M loc :=
  fun s =>
    let l := fresh (dom (heap s)) in
    (Normal l, mkState (<[l := v]> (heap s)) (designer s)).

(** [v.key]: a [TypeError] on [undefined] and [null]. *)
Definition get_property (v : JsValue) (key : string) : M JsValue :=
  match v with
  | JUndefined | JNull => throw TypeError
  | JObject props => ret (get props key)
  | JString s =>
      ret (if String.eqb key "length" then JNumber (Z.of_nat (length s)) else JUndefined)
  | JArray xs =>
      ret (if String.eqb key "length" then JNumber (Z.of_nat (length xs)) else JUndefined)
  | JBool _ | JNumber _ => ret JUndefined
  end.

(** [set_property l key v] is the assignment [o.key = v] on the object at [l]. *)
Fixpoint put (props : list (string * JsValue)) (key : string) (v : JsValue)
  : list (string * JsValue) :=
  match props with
  | [] => [(key, v)]
  | (k, w) :: rest => if String.eqb k key then (k, v) :: rest else (k, w) :: put rest key v
  end.

Definition set_property (l : loc) (key : string) (v : JsValue) : M unit :=
  fun s =>
    match heap s !! l with
    | Some (JObject props) =>
        (Normal tt, mkState (<[l := JObject (put props key v)]> (heap s)) (designer s))
    | Some JUndefined | Some JNull | None => (Throw TypeError, s)
    | Some _ => (Normal tt, s)
    end.

(** [v.trim()]: only a string has the method. *)
Definition call_trim (v : JsValue) : M jsstring :=
  match v with
  | JString s => ret (trim s)
  | _ => throw TypeError
  end.

(** ** zod schemas *)

(** The fragment of zod that the properties schemas are written in: strings
    and arrays with optional length bounds, booleans, and objects with a fixed
    shape (unknown keys are stripped from the output, zod's default). *)
Inductive ZodType : Type :=
  | ZodString (minLength maxLength : option nat)
  | ZodBoolean
  | ZodArray (element : ZodType) (minLength : option nat)
  | ZodObject (shape : list (string * ZodType)).

Module z.
Definition string_ : ZodType := ZodString None None.
Definition boolean : ZodType := ZodBoolean.
Definition array (element : ZodType) : ZodType := ZodArray element None.
Definition object (shape : list (string * ZodType)) : ZodType := ZodObject shape.
Definition min (n : nat) (t : ZodType) : ZodType :=
  match t with
  | ZodString _ mx => ZodString (Some n) mx
  | ZodArray el _ => ZodArray el (Some n)
  | _ => t
  end.
Definition max (n : nat) (t : ZodType) : ZodType :=
  match t with
  | ZodString mn _ => ZodString mn (Some n)
  | _ => t
  end.
End z.

Definition at_least (bound : option nat) (n : nat) : bool :=
  match bound with Some b => b <=? n | None => true end.

Definition at_most (bound : option nat) (n : nat) : bool :=
  match bound with Some b => n <=? b | None => true end.

(** The fields of an object schema, parsed in the order of the shape: each
    key of the shape is read from the input, a missing one as [undefined]. *)
Definition parse_shape (parse : ZodType -> JsValue -> option JsValue)
    (props : list (string * JsValue))
  : list (string * ZodType) -> option (list (string * JsValue)) :=
  fix fields (shape : list (string * ZodType)) :=
    match shape with
    | [] => Some []
    | (key, t) :: rest =>
        match parse t (get props key), fields rest with
        | Some v, Some out => Some ((key, v) :: out)
        | _, _ => None
        end
    end.

(** [schema.safeParse(input)]: [Some data] on success, [None] when there is at
    least one issue. *)
Fixpoint safeParse (t : ZodType) (input : JsValue) : option JsValue :=
  match t with
  | ZodString mn mx =>
      match input with
      | JString s =>
          if at_least mn (length s) && at_most mx (length s) then Some input else None
      | _ => None
      end
  | ZodBoolean =>
      match input with
      | JBool _ => Some input
      | _ => None
      end
  | ZodArray element mn =>
      match input with
      | JArray xs =>
          if at_least mn (length xs) then JArray <$> mapM (safeParse element) xs else None
      | _ => None
      end
  | ZodObject shape =>
      match input with
      | JObject props => JObject <$> parse_shape safeParse props shape
      | _ => None
      end
  end.

(** ** react-hook-form *)

(** [form.handleSubmit(onValid)] with [resolver: zodResolver(schema)]: the
    form's current values go through the schema; [onValid] runs on the parsed
    data when there is no issue, and is not called otherwise (the issues only
    reach the form's own error display). *)
Definition zodResolver (schema : ZodType) (values : JsValue) : option JsValue :=
  safeParse schema values.

Definition handleSubmit (resolver : JsValue -> option JsValue)
    (onValid : JsValue -> M unit) (values : JsValue) : M unit :=
  match resolver values with
  | Some data => onValid data
  | None => ret tt
  end.

(** ** Field type definitions *)

(** The part of a [FormElement] that the schema engine uses: the tag, the
    constructor and the value validator. *)
Record FormElement : Type := mkFormElement {
  fe_type : ElementsType;
  fe_construct : jsstring -> FormElementInstance;
  fe_validate : FormElementInstance -> JsValue -> M bool;
}.

(** [updateElement] of the [useDesigner] hook, which the properties editors
    call; the hook is defined outside these files. *)
Definition UpdateElement : Type := jsstring -> FormElementInstance -> M unit.

(** ** The single checkbox: first definition of [CheckboxField.tsx] *)

Module Checkbox.

Definition type : ElementsType := "CheckboxField".

Definition extraAttributes : JsValue :=
  JObject [ ("label", JString (js "Accept Terms and Conditions"));
            ("helperText", JString (js "You must agree to proceed"));
            ("required", JBool true) ].

(** Where the module-level constant [extraAttributes] lives. *)
Definition extraAttributes_ref : loc := 0.

Definition propertiesSchema : ZodType :=
  z.object [ ("label", z.max 50 (z.min 2 z.string_));
             ("helperText", z.max 200 z.string_);
             ("required", z.boolean) ].

Definition construct (id : jsstring) : FormElementInstance :=
  {| inst_id := id; inst_type := type; inst_extraAttributes := extraAttributes_ref |}.

Definition validate (formElement : FormElementInstance) (currentValue : JsValue) : M bool :=
  let element := formElement in
  let* attrs := load (inst_extraAttributes element) in
  let* required := get_property attrs "required" in
  if ToBoolean required then
    ret (strict_equals_string currentValue (js "true"))
  else
    ret true.

Definition CheckboxFieldFormElement : FormElement :=
  {| fe_type := type; fe_construct := construct; fe_validate := validate |}.

(** [applyChanges] of [PropertiesComponent]. *)
Definition applyChanges (updateElement : UpdateElement) (element : FormElementInstance)
    (values : JsValue) : M unit :=
  let* label := get_property values "label" in
  let* helperText := get_property values "helperText" in
  let* required := get_property values "required" in
  let* attrs := alloc (JObject [ ("label", label); ("helperText", helperText);
                                 ("required", required) ]) in
  updateElement (inst_id element)
    {| inst_id := inst_id element; inst_type := inst_type element;
       inst_extraAttributes := attrs |}.

(** The form's [onBlur] handler: [form.handleSubmit(applyChanges)]. *)
Definition onBlur (updateElement : UpdateElement) (element : FormElementInstance)
    (values : JsValue) : M unit :=
  handleSubmit (zodResolver propertiesSchema) (applyChanges updateElement element) values.

End Checkbox.

(** ** The checkbox group: second definition of [CheckboxField.tsx] *)

Module CheckboxGroup.

Definition type : ElementsType := "CheckboxField".

Definition extraAttributes : JsValue :=
  JObject [ ("label", JString (js "Select your interests"));
            ("helperText", JString (js "Choose all that apply"));
            ("required", JBool false);
            ("options", JArray [ JString (js "Option 1"); JString (js "Option 2");
                                 JString (js "Option 3") ]) ].

Definition extraAttributes_ref : loc := 1.

Definition propertiesSchema : ZodType :=
  z.object [ ("label", z.max 50 (z.min 2 z.string_));
             ("helperText", z.max 200 z.string_);
             ("required", z.boolean);
             ("options", z.min 1 (z.array z.string_)) ].

Definition construct (id : jsstring) : FormElementInstance :=
  {| inst_id := id; inst_type := type; inst_extraAttributes := extraAttributes_ref |}.

Definition validate (formElement : FormElementInstance) (currentValue : JsValue) : M bool :=
  let element := formElement in
  let* attrs := load (inst_extraAttributes element) in
  let* required := get_property attrs "required" in
  if ToBoolean required then
    (* For multiple checkboxes, check if at least one is selected *)
    let* trimmed := call_trim currentValue in
    ret (0 <? length trimmed)
  else
    ret true.

Definition CheckboxFieldFormElement : FormElement :=
  {| fe_type := type; fe_construct := construct; fe_validate := validate |}.

Definition applyChanges (updateElement : UpdateElement) (element : FormElementInstance)
    (values : JsValue) : M unit :=
  let* label := get_property values "label" in
  let* helperText := get_property values "helperText" in
  let* required := get_property values "required" in
  let* options := get_property values "options" in
  let* attrs := alloc (JObject [ ("label", label); ("helperText", helperText);
                                 ("required", required); ("options", options) ]) in
  updateElement (inst_id element)
    {| inst_id := inst_id element; inst_type := inst_type element;
       inst_extraAttributes := attrs |}.

Definition onBlur (updateElement : UpdateElement) (element : FormElementInstance)
    (values : JsValue) : M unit :=
  handleSubmit (zodResolver propertiesSchema) (applyChanges updateElement element) values.

End CheckboxGroup.

(** The state once both modules have been evaluated: each module-level
    [extraAttributes] object is allocated, and the designer is empty. *)
Definition initial_state : State :=
  {| heap := <[CheckboxGroup.extraAttributes_ref := CheckboxGroup.extraAttributes]>
               (<[Checkbox.extraAttributes_ref := Checkbox.extraAttributes]> ∅);
     designer := {| instances := []; selectedId := None |} |}.

(** ** The designer, the registry and the submission validator *)

(** Modelled from the spec: [updateElement] of the [useDesigner] hook is not in
    these files.  Section 4.2, [updateConfiguration]: the instance with the
    given id is replaced, the order and every other instance are kept. *)
Definition updateElement : UpdateElement :=
  fun id element s =>
    let replace (el : FormElementInstance) :=
      if bool_decide (inst_id el = id) then element else el in
    (Normal tt,
     {| heap := heap s;
        designer := {| instances := replace <$> instances (designer s);
                       selectedId := selectedId (designer s) |} |}).

(** Modelled from the spec: the Field Type Registry ([FormElements]) is not in
    these files.  Section 2: a fixed mapping from a type tag to its Field Type
    Definition; section 9: one Registry entry per type.  Each definition is
    entered under its own tag, in the order given, as the keys of an object
    literal are. *)
Definition register (defs : list FormElement) : gmap ElementsType FormElement :=
  foldl (fun reg d => <[fe_type d := d]> reg) ∅ defs.

(** Modelled from the spec: section 4.1, [resolve(tag)] fails with
    [UnknownFieldType] if the tag is not registered. *)
Definition resolve (reg : gmap ElementsType FormElement) (tag : ElementsType)
  : M FormElement :=
  match reg !! tag with
  | Some d => ret d
  | None => throw (UnknownFieldType tag)
  end.

(** Modelled from the spec: section 3, Validation Report: a valid flag per
    instance id and the aggregate. *)
Record ValidationReport : Type := mkReport {
  perField : gmap jsstring bool;
  allValid : bool;
}.

(** Modelled from the spec: the Submission Validator is not in these files.
    Section 4.3: for every instance in document order, resolve its definition,
    read [submittedValues[id]] (an absent key is treated as an empty value),
    invoke [validateValue] and record the boolean, without stopping at the
    first failure; [allValid] is true iff every recorded boolean is. *)
Fixpoint validateFields (reg : gmap ElementsType FormElement)
    (fields : list FormElementInstance) (submittedValues : gmap jsstring jsstring)
    (report : ValidationReport) : M ValidationReport :=
  match fields with
  | [] => ret report
  | field :: rest =>
      let* definition := resolve reg (inst_type field) in
      let value := default [] (submittedValues !! inst_id field) in
      let* valid := fe_validate definition field (JString value) in
      validateFields reg rest submittedValues
        {| perField := <[inst_id field := valid]> (perField report);
           allValid := allValid report && valid |}
  end.

(** Modelled from the spec: section 4.3, [validate(document, submittedValues)];
    an empty instance list is vacuously valid. *)
Definition validateForm (reg : gmap ElementsType FormElement) (document : Document)
    (submittedValues : gmap jsstring jsstring) : M ValidationReport :=
  validateFields reg (instances document) submittedValues
    {| perField := ∅; allValid := true |}.

(** ** Definitions used in the statements *)

(** Whether a string has a code unit that [trim] would keep. *)
Definition has_non_white_space (s : jsstring) : bool :=
  existsb (fun c => negb (is_white_space c)) s.

(** The instance that [applyChanges] hands to [updateElement]:
    [{ ...element, extraAttributes: attrs }]. *)
Definition with_extraAttributes (element : FormElementInstance) (attrs : loc)
  : FormElementInstance :=
  {| inst_id := inst_id element; inst_type := inst_type element;
     inst_extraAttributes := attrs |}.

(** The state in which [updateElement] is called: the heap holds the new
    configuration object, nothing else has changed. *)
Definition with_new_object (s : State) (v : JsValue) : State :=
  {| heap := <[fresh (dom (heap s)) := v]> (heap s); designer := designer s |}.

(** A registry made of the definitions of the source. *)
Definition checkbox_registry (reg : gmap ElementsType FormElement) : Prop :=
  forall tag d, reg !! tag = Some d ->
    d = Checkbox.CheckboxFieldFormElement \/ d = CheckboxGroup.CheckboxFieldFormElement.

(** ** A concrete form, used to exercise the statements *)

(** A form with a required single checkbox [A] and a required checkbox group
    [B] whose options are "Option 1" and "Option 2". *)
Definition required_checkbox_props : list (string * JsValue) :=
  [ ("label", JString (js "Accept")); ("helperText", JString (js ""));
    ("required", JBool true) ].

Definition required_checkbox : JsValue := JObject required_checkbox_props.

Definition required_group_props : list (string * JsValue) :=
  [ ("label", JString (js "Interests")); ("helperText", JString (js ""));
    ("required", JBool true);
    ("options", JArray [ JString (js "Option 1"); JString (js "Option 2") ]) ].

Definition required_group : JsValue := JObject required_group_props.

Definition field_A : FormElementInstance :=
  {| inst_id := js "A"; inst_type := Checkbox.type; inst_extraAttributes := 2 |}.

Definition field_B : FormElementInstance :=
  {| inst_id := js "B"; inst_type := CheckboxGroup.type; inst_extraAttributes := 3 |}.

Definition example_state : State :=
  {| heap := <[3 := required_group]> (<[2 := required_checkbox]> (heap initial_state));
     designer := {| instances := [field_A; field_B]; selectedId := None |} |}.

(** An edit of field [A]: a shorter label, not required any more, and a key
    that the schema does not know. *)
Definition edited_values : JsValue :=
  JObject [ ("label", JString (js "Agree")); ("helperText", JString (js ""));
            ("required", JBool false); ("extra", JNumber 1) ].

(** What the schema of the single checkbox returns for that edit. *)
Definition edited_data : JsValue :=
  JObject [ ("label", JString (js "Agree")); ("helperText", JString (js ""));
            ("required", JBool false) ].

(** ** Array and string helpers of the form components *)

(** [s.split(sep)] for a separator of one code unit: the pieces between the
    occurrences of [sep]; the empty string splits into one empty piece. *)
Fixpoint split (sep : code_unit) (s : jsstring) : list jsstring :=
  match s with
  | [] => [[]]
  | c :: rest =>
      if (c =? sep)%N then [] :: split sep rest
      else match split sep rest with
           | [] => [[c]]
           | piece :: pieces => (c :: piece) :: pieces
           end
  end.

(** [xs.join(sep)]; the empty array joins to the empty string. *)
Fixpoint join (sep : jsstring) (xs : list jsstring) : jsstring :=
  match xs with
  | [] => []
  | [x] => x
  | x :: rest => x ++ sep ++ join sep rest
  end.

Definition comma : code_unit := 44%N.
Definition space : code_unit := 32%N.

(** [b.toString()] of a boolean. *)
Definition boolean_toString (b : bool) : jsstring :=
  if b then js "true" else js "false".

(** Truthiness of a string: [v.trim()] used as a filter predicate. *)
Definition truthy_string (s : jsstring) : bool := ToBoolean (JString s).

(** ** The form component of the single checkbox *)

Module CheckboxFormComponent.

(** The two [useState] cells. *)
Record ComponentState : Type := mkComponentState {
  checked : bool;
  error : option jsstring;
}.

(** First render: [useState(defaultValue === "true")] and [useState(null)]. *)
Definition mount (defaultValue : JsValue) : ComponentState :=
  {| checked := strict_equals_string defaultValue (js "true"); error := None |}.

(** The effect that mirrors the parent's verdict into [error]. *)
Definition syncError (isInvalid : bool) (required : JsValue) (st : ComponentState)
  : ComponentState :=
  if isInvalid then
    {| checked := checked st;
       error := Some (if ToBoolean required then js "This field is required"
                      else js "Invalid value") |}
  else {| checked := checked st; error := None |}.

Definition validateField (required : JsValue) (isChecked : bool) (st : ComponentState)
  : bool * ComponentState :=
  if ToBoolean required && negb isChecked then
    (false, {| checked := checked st; error := Some (js "This field is required") |})
  else
    (true, {| checked := checked st; error := None |}).

(** [handleChange]: the new component state and the calls made to
    [submitValue] (none when the prop is not passed). *)
Definition handleChange (element : FormElementInstance) (required : JsValue)
    (submitValue : bool) (isChecked : bool) (st : ComponentState)
  : ComponentState * list (jsstring * jsstring) :=
  let st1 := {| checked := isChecked; error := error st |} in
  let '(_, st2) := validateField required isChecked st1 in
  (st2, if submitValue then [(inst_id element, boolean_toString isChecked)] else []).

End CheckboxFormComponent.

(** ** The form component of the checkbox group *)

Module CheckboxGroupFormComponent.

Record ComponentState : Type := mkComponentState {
  selectedOptions : list jsstring;
  error : option jsstring;
}.

(** Parse default values (comma-separated string of selected options); the
    prop is optional, [None] stands for [undefined]. *)
Definition initialSelected (defaultValue : option jsstring) : list jsstring :=
  match defaultValue with
  | Some value =>
      if truthy_string value
      then filter (fun v => truthy_string (trim v) = true) (split comma value)
      else []
  | None => []
  end.

Definition mount (defaultValue : option jsstring) : ComponentState :=
  {| selectedOptions := initialSelected defaultValue; error := None |}.

Definition validateField (required : JsValue) (selected : list jsstring)
    (st : ComponentState) : bool * ComponentState :=
  if ToBoolean required && (length selected =? 0) then
    (false, {| selectedOptions := selectedOptions st;
               error := Some (js "Please select at least one option") |})
  else
    (true, {| selectedOptions := selectedOptions st; error := None |}).

(** The selection after a click on the checkbox of [option]. *)
Definition newSelected (selectedOptions : list jsstring) (option : jsstring)
    (isChecked : bool) : list jsstring :=
  if isChecked then selectedOptions ++ [option]
  else filter (fun item => item <> option) selectedOptions.

(** [handleChange]: the new component state and the calls made to
    [submitValue]; the value is submitted as a comma-separated string. *)
Definition handleChange (element : FormElementInstance) (required : JsValue)
    (submitValue : bool) (option : jsstring) (isChecked : bool) (st : ComponentState)
  : ComponentState * list (jsstring * jsstring) :=
  let selected := newSelected (selectedOptions st) option isChecked in
  let st1 := {| selectedOptions := selected; error := error st |} in
  let '(_, st2) := validateField required selected st1 in
  (st2, if submitValue then [(inst_id element, join [comma] selected)] else []).

End CheckboxGroupFormComponent.

(** ** The options editor of the checkbox group's properties component *)

Module CheckboxGroupPropertiesComponent.

(** The text of the input and the value of the form's [options] field. *)
Record EditorState : Type := mkEditorState {
  optionsInput : jsstring;
  options : list jsstring;
}.

(** [useState(element.extraAttributes.options.join(", "))]. *)
Definition mount (configured : list jsstring) : EditorState :=
  {| optionsInput := join [comma; space] configured; options := configured |}.

Definition onChange (value : jsstring) (st : EditorState) : EditorState :=
  {| optionsInput := value; options := options st |}.

(** [optionsInput.split(",").map(opt => opt.trim()).filter(opt => opt.length > 0)]. *)
Definition parsedOptions (optionsInput : jsstring) : list jsstring :=
  filter (fun opt => 0 < length opt) (map trim (split comma optionsInput)).

Definition finalOptions (optionsInput : jsstring) : list jsstring :=
  let options := parsedOptions optionsInput in
  if 0 <? length options then options else [js "Option 1"].

(** The input's [onBlur]: [field.onChange(finalOptions)] and
    [setOptionsInput(finalOptions.join(", "))]. *)
Definition onBlur (st : EditorState) : EditorState :=
  let final := finalOptions (optionsInput st) in
  {| optionsInput := join [comma; space] final; options := final |}.

End CheckboxGroupPropertiesComponent.

(** ** [lib/pdfMakeClient.ts] *)

Module pdfMakeClient.

(** [v?.key] *)
Definition optional_get (v : JsValue) (key : string) : M JsValue :=
  match v with
  | JUndefined | JNull => ret JUndefined
  | _ => get_property v key
  end.

(** [v ?? alt], [alt] being evaluated only when [v] is nullish. *)
Definition nullish (v : JsValue) (alt : M JsValue) : M JsValue :=
  match v with
  | JUndefined | JNull => alt
  | _ => ret v
  end.

(** The value assigned to [typedPdfMake.vfs]:
    [fonts.pdfMake?.vfs ?? fonts.vfs ?? {}]. *)
Definition vfs (fonts : JsValue) : M JsValue :=
  let* pdfMake := get_property fonts "pdfMake" in
  let* inner := optional_get pdfMake "vfs" in
  let* first := nullish inner (get_property fonts "vfs") in
  nullish first (ret (JObject [])).

End pdfMakeClient.

(** ** Definitions used in the statements about the components *)

(** An option as the options editor produces them: trimmed, not empty, and
    without a comma. *)
Definition normal_option (opt : jsstring) : Prop :=
  trim opt = opt /\ opt <> [] /\ ~ In comma opt.

(** A string that does not start with white space. *)
Definition starts_clean (s : jsstring) : Prop :=
  match s with [] => True | c :: _ => is_white_space c = false end.

(** A selected value that survives the comma-separated encoding: it has a
    character that is not white space, and no comma. *)
Definition storable (opt : jsstring) : Prop :=
  has_non_white_space opt = true /\ ~ In comma opt.

(** * Properties *)

(** Closes the cases where the input is of the wrong kind: the parse fails
    and the characterisation names another constructor. *)
Ltac wrong_kind :=
  split;
  [ intros [? ?]; discriminate
  | intros (? & H); first [ discriminate H | destruct H as [H _]; discriminate H ] ].

(** ** Helper lemmas: the monad and the heap *)

Lemma load_allocated (l : loc) (v : JsValue) (s : State) :
  heap s !! l = Some v -> load l s = (Normal v, s).
Proof. intros H. unfold load. now rewrite H. Qed.

Lemma bind_normal {A B} (m : M A) (k : A -> M B) (a : A) (s s' : State) :
  m s = (Normal a, s') -> bind m k s = k a s'.
Proof. intros H. unfold bind. now rewrite H. Qed.

Lemma bind_throw {A B} (m : M A) (k : A -> M B) (e : JsError) (s s' : State) :
  m s = (Throw e, s') -> bind m k s = (Throw e, s').
Proof. intros H. unfold bind. now rewrite H. Qed.

(** Reading [element.extraAttributes.required] on an instance whose
    configuration is an object. *)
Lemma read_required (l : loc) (props : list (string * JsValue)) {B}
    (k : JsValue -> M B) (s : State) :
  heap s !! l = Some (JObject props) ->
  (let* attrs := load l in let* required := get_property attrs "required" in k required) s
  = k (get props "required") s.
Proof.
  intros H. rewrite (bind_normal _ _ _ _ _ (load_allocated _ _ _ H)). reflexivity.
Qed.

(** ** Helper lemmas: [trim] *)

Lemma trimStart_has_non_white_space (s : jsstring) :
  has_non_white_space (trimStart s) = has_non_white_space s.
Proof.
  induction s as [|c rest IH]; simpl; [reflexivity|].
  destruct (is_white_space c) eqn:E; simpl; [exact IH|].
  now rewrite E.
Qed.

Lemma trimStart_nonempty (s : jsstring) :
  (0 <? length (trimStart s)) = has_non_white_space s.
Proof.
  induction s as [|c rest IH]; simpl; [reflexivity|].
  destruct (is_white_space c); simpl; [exact IH | reflexivity].
Qed.

Lemma has_non_white_space_rev (s : jsstring) :
  has_non_white_space (rev s) = has_non_white_space s.
Proof.
  unfold has_non_white_space. induction s as [|c rest IH]; simpl; [reflexivity|].
  rewrite existsb_app, IH. simpl. rewrite orb_false_r. apply orb_comm.
Qed.

Lemma trim_nonempty (s : jsstring) :
  (0 <? length (trim s)) = has_non_white_space s.
Proof.
  unfold trim, trimEnd. rewrite length_rev, trimStart_nonempty.
  now rewrite has_non_white_space_rev, trimStart_has_non_white_space.
Qed.

Lemma has_non_white_space_spec (s : jsstring) :
  has_non_white_space s = true <-> exists c, In c s /\ is_white_space c = false.
Proof.
  unfold has_non_white_space. rewrite existsb_exists.
  split; intros (c & Hin & Hc); exists c; split; auto.
  - now apply negb_true_iff.
  - now apply negb_true_iff.
Qed.

(** ** What the two value validators compute *)

Lemma checkbox_validate_eq (formElement : FormElementInstance)
    (props : list (string * JsValue)) (currentValue : JsValue) (s : State) :
  heap s !! inst_extraAttributes formElement = Some (JObject props) ->
  Checkbox.validate formElement currentValue s =
    (Normal (if ToBoolean (get props "required")
             then strict_equals_string currentValue (js "true") else true), s).
Proof.
  intros H. unfold Checkbox.validate. rewrite (read_required _ _ _ _ H).
  now destruct (ToBoolean _).
Qed.

Lemma group_validate_string (formElement : FormElementInstance)
    (props : list (string * JsValue)) (value : jsstring) (s : State) :
  heap s !! inst_extraAttributes formElement = Some (JObject props) ->
  CheckboxGroup.validate formElement (JString value) s =
    (Normal (if ToBoolean (get props "required")
             then has_non_white_space value else true), s).
Proof.
  intros H. unfold CheckboxGroup.validate. rewrite (read_required _ _ _ _ H).
  destruct (ToBoolean _); [|reflexivity].
  unfold bind, call_trim, ret. now rewrite trim_nonempty.
Qed.

(** ** Value validation of the checkbox group *)

(** C1: a checkbox group configured with required=true and the options
    "Option 1" and "Option 2" rejects the submitted value "" and accepts the
    submitted value "Option 1"; neither call changes the state. *)
Theorem group_required_scenario (formElement : FormElementInstance)
    (label helperText : JsValue) (s : State) :
  heap s !! inst_extraAttributes formElement =
    Some (JObject [ ("label", label); ("helperText", helperText); ("required", JBool true);
                    ("options", JArray [ JString (js "Option 1"); JString (js "Option 2") ]) ]) ->
  CheckboxGroup.validate formElement (JString (js "")) s = (Normal false, s) /\
  CheckboxGroup.validate formElement (JString (js "Option 1")) s = (Normal true, s).
Proof.
  intros H. split; rewrite (group_validate_string _ _ _ _ H); reflexivity.
Qed.

Lemma group_required_scenario_witness :
  heap example_state !! inst_extraAttributes field_B =
    Some (JObject [ ("label", JString (js "Interests")); ("helperText", JString (js ""));
                    ("required", JBool true);
                    ("options", JArray [ JString (js "Option 1"); JString (js "Option 2") ]) ]) /\
  CheckboxGroup.validate field_B (JString (js "")) example_state = (Normal false, example_state) /\
  CheckboxGroup.validate field_B (JString (js "Option 1")) example_state
    = (Normal true, example_state).
Proof.
  split; [reflexivity|].
  apply (group_required_scenario field_B (JString (js "Interests")) (JString (js ""))
           example_state).
  reflexivity.
Defined.

(** C10: with required=true the checkbox group accepts every submitted string
    that has at least one non-whitespace character, whatever the configured
    options are (they are never consulted), and rejects a string made of
    whitespace only. *)
Theorem group_required_accepts_non_blank (formElement : FormElementInstance)
    (props : list (string * JsValue)) (value : jsstring) (s : State) :
  heap s !! inst_extraAttributes formElement = Some (JObject props) ->
  get props "required" = JBool true ->
  exists verdict : bool,
    CheckboxGroup.validate formElement (JString value) s = (Normal verdict, s) /\
    (verdict = true <-> exists c, In c value /\ is_white_space c = false) /\
    ((forall c, In c value -> is_white_space c = true) -> verdict = false).
Proof.
  intros H Hreq. exists (has_non_white_space value).
  rewrite (group_validate_string _ _ _ _ H), Hreq. simpl.
  split; [reflexivity|]. split; [apply has_non_white_space_spec|].
  intros Hall. apply not_true_is_false. intros Hex.
  apply has_non_white_space_spec in Hex as (c & Hin & Hc).
  rewrite (Hall c Hin) in Hc. discriminate.
Qed.

Lemma group_required_accepts_non_blank_witness :
  heap example_state !! inst_extraAttributes field_B = Some (JObject required_group_props) /\
  get required_group_props "required" = JBool true /\
  exists verdict : bool,
    CheckboxGroup.validate field_B (JString (js " not an option ")) example_state
      = (Normal verdict, example_state) /\
    (verdict = true <->
       exists c, In c (js " not an option ") /\ is_white_space c = false) /\
    ((forall c, In c (js " not an option ") -> is_white_space c = true) -> verdict = false).
Proof.
  split; [reflexivity|]. split; [reflexivity|].
  apply (group_required_accepts_non_blank field_B required_group_props
           (js " not an option ") example_state);
    reflexivity.
Defined.

(** ** Value validation of the single checkbox *)

Lemma strict_equals_string_spec (v : JsValue) (s : jsstring) :
  strict_equals_string v s = true <-> v = JString s.
Proof.
  destruct v; simpl; try (split; [discriminate | intros [=]]).
  rewrite bool_decide_eq_true. split; [now intros -> | now intros [= ->]].
Qed.

Lemma resolve_registered (reg : gmap ElementsType FormElement) (tag : ElementsType)
    (d : FormElement) (s : State) :
  reg !! tag = Some d -> resolve reg tag s = (Normal d, s).
Proof. intros H. unfold resolve. now rewrite H. Qed.

Lemma register_one (d : FormElement) : register [d] !! fe_type d = Some d.
Proof. unfold register. simpl. apply lookup_insert_eq. Qed.

(** The report for a document with a single field. *)
Lemma validateForm_one_field (reg : gmap ElementsType FormElement) (d : FormElement)
    (field : FormElementInstance) (value : jsstring) (valid : bool) (s : State) :
  reg !! inst_type field = Some d ->
  fe_validate d field (JString value) s = (Normal valid, s) ->
  validateForm reg {| instances := [field]; selectedId := None |}
    {[ inst_id field := value ]} s
  = (Normal {| perField := {[ inst_id field := valid ]}; allValid := valid |}, s).
Proof.
  intros Hreg Hval. unfold validateForm. simpl.
  rewrite (bind_normal _ _ _ _ _ (resolve_registered _ _ _ _ Hreg)).
  rewrite lookup_singleton_eq. simpl.
  rewrite (bind_normal _ _ _ _ _ Hval). unfold ret.
  now rewrite insert_empty.
Qed.

(** C2: a single checkbox configured with required=true is valid exactly when
    the submitted value is the string "true"; the string "false" is invalid;
    and the validation report of a form made of that field records true for
    the value "true" and false for the value "false". *)
Theorem checkbox_required_only_true (formElement : FormElementInstance)
    (props : list (string * JsValue)) (s : State) :
  heap s !! inst_extraAttributes formElement = Some (JObject props) ->
  get props "required" = JBool true ->
  inst_type formElement = Checkbox.type ->
  (forall currentValue : JsValue, exists verdict : bool,
      Checkbox.validate formElement currentValue s = (Normal verdict, s) /\
      (verdict = true <-> currentValue = JString (js "true"))) /\
  Checkbox.validate formElement (JString (js "false")) s = (Normal false, s) /\
  validateForm (register [Checkbox.CheckboxFieldFormElement])
    {| instances := [formElement]; selectedId := None |}
    {[ inst_id formElement := js "true" ]} s
  = (Normal {| perField := {[ inst_id formElement := true ]}; allValid := true |}, s) /\
  validateForm (register [Checkbox.CheckboxFieldFormElement])
    {| instances := [formElement]; selectedId := None |}
    {[ inst_id formElement := js "false" ]} s
  = (Normal {| perField := {[ inst_id formElement := false ]}; allValid := false |}, s).
Proof.
  intros H Hreq Hty.
  assert (Hv : forall v, Checkbox.validate formElement v s
                         = (Normal (strict_equals_string v (js "true")), s)).
  { intros v. rewrite (checkbox_validate_eq _ _ _ _ H), Hreq. reflexivity. }
  assert (Hreg : register [Checkbox.CheckboxFieldFormElement] !! inst_type formElement
                 = Some Checkbox.CheckboxFieldFormElement).
  { rewrite Hty. apply (register_one Checkbox.CheckboxFieldFormElement). }
  split; [|split; [|split]].
  - intros v. eexists. split; [apply Hv|]. apply strict_equals_string_spec.
  - apply Hv.
  - apply (validateForm_one_field _ _ _ _ _ _ Hreg). apply Hv.
  - apply (validateForm_one_field _ _ _ _ _ _ Hreg). apply Hv.
Qed.

Lemma checkbox_required_only_true_witness :
  heap example_state !! inst_extraAttributes field_A = Some (JObject required_checkbox_props) /\
  get required_checkbox_props "required" = JBool true /\
  inst_type field_A = Checkbox.type /\
  (forall currentValue : JsValue, exists verdict : bool,
      Checkbox.validate field_A currentValue example_state = (Normal verdict, example_state) /\
      (verdict = true <-> currentValue = JString (js "true"))) /\
  Checkbox.validate field_A (JString (js "false")) example_state
    = (Normal false, example_state) /\
  validateForm (register [Checkbox.CheckboxFieldFormElement])
    {| instances := [field_A]; selectedId := None |}
    {[ inst_id field_A := js "true" ]} example_state
  = (Normal {| perField := {[ inst_id field_A := true ]}; allValid := true |}, example_state) /\
  validateForm (register [Checkbox.CheckboxFieldFormElement])
    {| instances := [field_A]; selectedId := None |}
    {[ inst_id field_A := js "false" ]} example_state
  = (Normal {| perField := {[ inst_id field_A := false ]}; allValid := false |}, example_state).
Proof.
  split; [reflexivity|]. split; [reflexivity|]. split; [reflexivity|].
  apply (checkbox_required_only_true field_A required_checkbox_props example_state);
    reflexivity.
Defined.

(** ** An absent submitted value *)

(** C9 (as the code has it): when the absent value reaches [validate] as the
    empty string, which is what the parameter type [string] allows, neither
    validator throws: the verdict is false when the field is required and true
    otherwise, and the state is untouched.  The single checkbox gives the same
    verdict on [undefined]. *)
Theorem validate_absent_value (formElement : FormElementInstance)
    (props : list (string * JsValue)) (s : State) :
  heap s !! inst_extraAttributes formElement = Some (JObject props) ->
  Checkbox.validate formElement (JString []) s
    = (Normal (negb (ToBoolean (get props "required"))), s) /\
  CheckboxGroup.validate formElement (JString []) s
    = (Normal (negb (ToBoolean (get props "required"))), s) /\
  Checkbox.validate formElement JUndefined s
    = (Normal (negb (ToBoolean (get props "required"))), s).
Proof.
  intros H. rewrite (group_validate_string _ _ _ _ H), !(checkbox_validate_eq _ _ _ _ H).
  now destruct (ToBoolean _).
Qed.

Lemma validate_absent_value_witness :
  heap example_state !! inst_extraAttributes field_B = Some (JObject required_group_props) /\
  Checkbox.validate field_B (JString []) example_state
    = (Normal (negb (ToBoolean (get required_group_props "required"))), example_state) /\
  CheckboxGroup.validate field_B (JString []) example_state
    = (Normal (negb (ToBoolean (get required_group_props "required"))), example_state) /\
  Checkbox.validate field_B JUndefined example_state
    = (Normal (negb (ToBoolean (get required_group_props "required"))), example_state).
Proof.
  split; [reflexivity|].
  apply (validate_absent_value field_B required_group_props example_state). reflexivity.
Defined.

(** C9 as stated fails: on [undefined] the checkbox group with required=true
    evaluates [currentValue.trim()] and throws a [TypeError]. *)
Lemma group_validate_undefined_throws :
  heap example_state !! inst_extraAttributes field_B = Some required_group /\
  get required_group_props "required" = JBool true /\
  CheckboxGroup.validate field_B JUndefined example_state = (Throw TypeError, example_state).
Proof. repeat split. Qed.

(** ** The configuration validators *)

Lemma at_least_Some (b n : nat) : at_least (Some b) n = true <-> b <= n.
Proof. apply Nat.leb_le. Qed.

Lemma at_most_Some (b n : nat) : at_most (Some b) n = true <-> n <= b.
Proof. apply Nat.leb_le. Qed.

Lemma safeParse_string_spec (mn mx : option nat) (v : JsValue) :
  is_Some (safeParse (ZodString mn mx) v) <->
  exists s : jsstring,
    v = JString s /\ at_least mn (length s) = true /\ at_most mx (length s) = true.
Proof.
  destruct v as [| |b|n|s|xs|props]; simpl; try wrong_kind.
  split.
  - intros [out Hout]. exists s. split; [reflexivity|].
    apply andb_true_iff. now destruct (at_least mn (length s) && at_most mx (length s)).
  - intros (s' & [= <-] & H1 & H2). rewrite H1, H2. simpl. eauto.
Qed.

Lemma safeParse_boolean_spec (v : JsValue) :
  is_Some (safeParse ZodBoolean v) <-> exists b : bool, v = JBool b.
Proof.
  destruct v; simpl; try wrong_kind.
  split; eauto.
Qed.

(** An array parses as an array of plain strings exactly when every element
    is a string. *)
Lemma mapM_string_spec (xs : list JsValue) :
  is_Some (mapM (safeParse z.string_) xs) <-> exists strs : list jsstring, xs = JString <$> strs.
Proof.
  rewrite mapM_is_Some. induction xs as [|x rest IH].
  - split; [exists []; reflexivity | constructor].
  - rewrite Forall_cons, IH. split.
    + intros [Hx [strs ->]].
      apply (safeParse_string_spec None None) in Hx as (str & -> & _).
      now exists (str :: strs).
    + intros ([|str strs] & H); [discriminate|]. injection H as -> ->.
      split; [|eauto]. apply (safeParse_string_spec None None). exists str. auto.
Qed.

Lemma safeParse_string_array_spec (n : nat) (v : JsValue) :
  is_Some (safeParse (z.min n (z.array z.string_)) v) <->
  exists strs : list jsstring, v = JArray (JString <$> strs) /\ n <= length strs.
Proof.
  destruct v as [| |b|m|s|xs|props]; simpl; try wrong_kind.
  destruct (Nat.leb_spec n (length xs)) as [Hle|Hlt].
  - rewrite fmap_is_Some. change (ZodString None None) with z.string_.
    rewrite mapM_string_spec. split.
    + intros [strs ->]. exists strs. split; [reflexivity|]. now rewrite length_fmap in Hle.
    + intros (strs & [= ->] & _). eauto.
  - split; [intros [? ?]; discriminate|]. intros (strs & [= ->] & Hn).
    rewrite length_fmap in Hlt. lia.
Qed.

Lemma parse_shape_is_Some (parse : ZodType -> JsValue -> option JsValue)
    (props : list (string * JsValue)) (shape : list (string * ZodType)) :
  is_Some (parse_shape parse props shape) <->
  Forall (fun entry => is_Some (parse entry.2 (get props entry.1))) shape.
Proof.
  induction shape as [|[key t] rest IH]; simpl.
  - split; [constructor | eauto].
  - rewrite Forall_cons, <- IH. simpl.
    destruct (parse t (get props key)), (parse_shape parse props rest); split;
      first [ intros [? ?]; discriminate
            | intros [[? ?] [? ?]]; discriminate
            | eauto ].
Qed.

Lemma safeParse_object_is_Some (shape : list (string * ZodType)) (input : JsValue) :
  is_Some (safeParse (ZodObject shape) input) <->
  exists props, input = JObject props /\
    Forall (fun entry => is_Some (safeParse entry.2 (get props entry.1))) shape.
Proof.
  destruct input as [| |b|n|s|xs|props]; simpl; try wrong_kind.
  rewrite fmap_is_Some, parse_shape_is_Some. split; [eauto|].
  now intros (props' & [= <-] & H).
Qed.

(** C6: the configuration validator of the single checkbox accepts an input
    exactly when it is an object whose label is a string of 2 to 50 code
    units, whose helperText is a string of at most 200 code units and whose
    required is a boolean; the validator of the checkbox group asks, on top of
    that, that options be an array of strings with at least one element.  Any
    other input is rejected. *)
Theorem propertiesSchema_accepts_iff (input : JsValue) :
  (is_Some (safeParse Checkbox.propertiesSchema input) <->
   exists props (label helperText : jsstring) (required : bool),
     input = JObject props /\
     get props "label" = JString label /\ 2 <= length label <= 50 /\
     get props "helperText" = JString helperText /\ length helperText <= 200 /\
     get props "required" = JBool required) /\
  (is_Some (safeParse CheckboxGroup.propertiesSchema input) <->
   exists props (label helperText : jsstring) (required : bool) (options : list jsstring),
     input = JObject props /\
     get props "label" = JString label /\ 2 <= length label <= 50 /\
     get props "helperText" = JString helperText /\ length helperText <= 200 /\
     get props "required" = JBool required /\
     get props "options" = JArray (JString <$> options) /\ 1 <= length options).
Proof.
  split.
  - unfold Checkbox.propertiesSchema, z.object. rewrite safeParse_object_is_Some.
    split.
    + intros (props & -> & H). apply Forall_cons in H as [Hl H].
      apply Forall_cons in H as [Hh H]. apply Forall_cons in H as [Hr _].
      apply safeParse_string_spec in Hl as (label & Hl & Hl1 & Hl2).
      apply safeParse_string_spec in Hh as (helper & Hh & _ & Hh2).
      apply safeParse_boolean_spec in Hr as (req & Hr).
      apply (at_least_Some 2) in Hl1. apply (at_most_Some 50) in Hl2.
      apply (at_most_Some 200) in Hh2.
      exists props, label, helper, req. repeat split; assumption.
    + intros (props & label & helper & req & -> & Hl & [Hl1 Hl2] & Hh & Hh2 & Hr).
      exists props. split; [reflexivity|].
      repeat apply Forall_cons_2; [| | |constructor]; simpl.
      * apply (safeParse_string_spec (Some 2) (Some 50)). exists label.
        split; [assumption|]. split; [now apply at_least_Some | now apply at_most_Some].
      * apply (safeParse_string_spec None (Some 200)). exists helper.
        split; [assumption|]. split; [reflexivity | now apply at_most_Some].
      * apply safeParse_boolean_spec. eauto.
  - unfold CheckboxGroup.propertiesSchema, z.object. rewrite safeParse_object_is_Some.
    split.
    + intros (props & -> & H). apply Forall_cons in H as [Hl H].
      apply Forall_cons in H as [Hh H]. apply Forall_cons in H as [Hr H].
      apply Forall_cons in H as [Ho _].
      apply safeParse_string_spec in Hl as (label & Hl & Hl1 & Hl2).
      apply safeParse_string_spec in Hh as (helper & Hh & _ & Hh2).
      apply safeParse_boolean_spec in Hr as (req & Hr).
      apply (safeParse_string_array_spec 1) in Ho as (options & Ho & Hn).
      apply (at_least_Some 2) in Hl1. apply (at_most_Some 50) in Hl2.
      apply (at_most_Some 200) in Hh2.
      exists props, label, helper, req, options. repeat split; assumption.
    + intros (props & label & helper & req & options & -> & Hl & [Hl1 Hl2] & Hh & Hh2 & Hr
              & Ho & Hn).
      exists props. split; [reflexivity|].
      repeat apply Forall_cons_2; [| | | |constructor]; simpl.
      * apply (safeParse_string_spec (Some 2) (Some 50)). exists label.
        split; [assumption|]. split; [now apply at_least_Some | now apply at_most_Some].
      * apply (safeParse_string_spec None (Some 200)). exists helper.
        split; [assumption|]. split; [reflexivity | now apply at_most_Some].
      * apply safeParse_boolean_spec. eauto.
      * apply (safeParse_string_array_spec 1). eauto.
Qed.

(** ** Construction *)

(** C3: for each of the two checkbox definitions and every id, the instance
    returned by [construct] has a configuration that its own
    [propertiesSchema] accepts (the parse returns the configuration itself),
    in every state where the module-level defaults are as the modules
    allocated them. *)
Theorem construct_configuration_valid (id : jsstring) (s : State) :
  heap s !! Checkbox.extraAttributes_ref = Some Checkbox.extraAttributes ->
  heap s !! CheckboxGroup.extraAttributes_ref = Some CheckboxGroup.extraAttributes ->
  (exists configuration,
     load (inst_extraAttributes (fe_construct Checkbox.CheckboxFieldFormElement id)) s
       = (Normal configuration, s) /\
     safeParse Checkbox.propertiesSchema configuration = Some configuration) /\
  (exists configuration,
     load (inst_extraAttributes (fe_construct CheckboxGroup.CheckboxFieldFormElement id)) s
       = (Normal configuration, s) /\
     safeParse CheckboxGroup.propertiesSchema configuration = Some configuration).
Proof.
  intros H1 H2. split.
  - exists Checkbox.extraAttributes. split; [now apply load_allocated | reflexivity].
  - exists CheckboxGroup.extraAttributes. split; [now apply load_allocated | reflexivity].
Qed.

Lemma construct_configuration_valid_witness :
  heap initial_state !! Checkbox.extraAttributes_ref = Some Checkbox.extraAttributes /\
  heap initial_state !! CheckboxGroup.extraAttributes_ref = Some CheckboxGroup.extraAttributes /\
  (exists configuration,
     load (inst_extraAttributes (fe_construct Checkbox.CheckboxFieldFormElement (js "A")))
       initial_state = (Normal configuration, initial_state) /\
     safeParse Checkbox.propertiesSchema configuration = Some configuration) /\
  (exists configuration,
     load (inst_extraAttributes (fe_construct CheckboxGroup.CheckboxFieldFormElement (js "A")))
       initial_state = (Normal configuration, initial_state) /\
     safeParse CheckboxGroup.propertiesSchema configuration = Some configuration).
Proof.
  split; [reflexivity|]. split; [reflexivity|].
  apply (construct_configuration_valid (js "A") initial_state); reflexivity.
Defined.

(** ** Committing an edited configuration *)

Lemma safeParse_string_id (mn mx : option nat) (v out : JsValue) :
  safeParse (ZodString mn mx) v = Some out -> out = v.
Proof.
  destruct v; simpl; try discriminate.
  destruct (at_least _ _ && at_most _ _); [now intros [= <-] | discriminate].
Qed.

Lemma safeParse_boolean_id (v out : JsValue) :
  safeParse ZodBoolean v = Some out -> out = v.
Proof. destruct v; simpl; try discriminate. now intros [= <-]. Qed.

Lemma safeParse_string_array_id (mn : option nat) (v out : JsValue) :
  safeParse (ZodArray (ZodString None None) mn) v = Some out -> out = v.
Proof.
  destruct v as [| |b|n|s|xs|props]; simpl; try discriminate.
  destruct (at_least mn (length xs)); [|discriminate].
  destruct (mapM _ xs) as [ys|] eqn:E; [|discriminate]. intros [= <-]. f_equal.
  apply mapM_Some_1 in E. induction E as [|x y xs' ys' Hxy _ IH]; [reflexivity|].
  rewrite IH. f_equal. now apply (safeParse_string_id None None).
Qed.

Lemma safeParse_object (shape : list (string * ZodType)) (props : list (string * JsValue)) :
  safeParse (ZodObject shape) (JObject props) = JObject <$> parse_shape safeParse props shape.
Proof. reflexivity. Qed.

Lemma parse_shape_cons (parse : ZodType -> JsValue -> option JsValue)
    (props : list (string * JsValue)) (key : string) (t : ZodType)
    (rest : list (string * ZodType)) :
  parse_shape parse props ((key, t) :: rest) =
    match parse t (get props key), parse_shape parse props rest with
    | Some v, Some out => Some ((key, v) :: out)
    | _, _ => None
    end.
Proof. reflexivity. Qed.

Lemma parse_shape_nil (parse : ZodType -> JsValue -> option JsValue)
    (props : list (string * JsValue)) :
  parse_shape parse props [] = Some [].
Proof. reflexivity. Qed.

(** What a successful parse returns: the object made of exactly the keys of
    the schema, each with the value read from the input; parsing that object
    again returns it unchanged. *)
Lemma checkbox_parse_output (values data : JsValue) :
  safeParse Checkbox.propertiesSchema values = Some data ->
  exists props,
    values = JObject props /\
    data = JObject [ ("label", get props "label"); ("helperText", get props "helperText");
                     ("required", get props "required") ] /\
    safeParse Checkbox.propertiesSchema data = Some data.
Proof.
  destruct values as [| |b|n|s|xs|props]; try discriminate.
  intros H. exists props. split; [reflexivity|].
  unfold Checkbox.propertiesSchema, z.object in *.
  rewrite safeParse_object, !parse_shape_cons, parse_shape_nil in H.
  destruct (safeParse _ (get props "label")) as [v1|] eqn:E1; [|discriminate].
  destruct (safeParse _ (get props "helperText")) as [v2|] eqn:E2; [|discriminate].
  destruct (safeParse _ (get props "required")) as [v3|] eqn:E3; [|discriminate].
  pose proof (safeParse_string_id (Some 2) (Some 50) _ _ E1) as ->.
  pose proof (safeParse_string_id None (Some 200) _ _ E2) as ->.
  pose proof (safeParse_boolean_id _ _ E3) as ->.
  injection H as <-. split; [reflexivity|].
  rewrite safeParse_object, !parse_shape_cons, parse_shape_nil.
  change (get [ ("label", get props "label"); ("helperText", get props "helperText");
                ("required", get props "required") ] "label") with (get props "label").
  change (get [ ("label", get props "label"); ("helperText", get props "helperText");
                ("required", get props "required") ] "helperText")
    with (get props "helperText").
  change (get [ ("label", get props "label"); ("helperText", get props "helperText");
                ("required", get props "required") ] "required") with (get props "required").
  now rewrite E1, E2, E3.
Qed.

Lemma group_parse_output (values data : JsValue) :
  safeParse CheckboxGroup.propertiesSchema values = Some data ->
  exists props,
    values = JObject props /\
    data = JObject [ ("label", get props "label"); ("helperText", get props "helperText");
                     ("required", get props "required"); ("options", get props "options") ] /\
    safeParse CheckboxGroup.propertiesSchema data = Some data.
Proof.
  destruct values as [| |b|n|s|xs|props]; try discriminate.
  intros H. exists props. split; [reflexivity|].
  unfold CheckboxGroup.propertiesSchema, z.object in *.
  rewrite safeParse_object, !parse_shape_cons, parse_shape_nil in H.
  destruct (safeParse _ (get props "label")) as [v1|] eqn:E1; [|discriminate].
  destruct (safeParse _ (get props "helperText")) as [v2|] eqn:E2; [|discriminate].
  destruct (safeParse _ (get props "required")) as [v3|] eqn:E3; [|discriminate].
  destruct (safeParse _ (get props "options")) as [v4|] eqn:E4; [|discriminate].
  pose proof (safeParse_string_id (Some 2) (Some 50) _ _ E1) as ->.
  pose proof (safeParse_string_id None (Some 200) _ _ E2) as ->.
  pose proof (safeParse_boolean_id _ _ E3) as ->.
  pose proof (safeParse_string_array_id (Some 1) _ _ E4) as ->.
  injection H as <-. split; [reflexivity|].
  rewrite safeParse_object, !parse_shape_cons, parse_shape_nil.
  set (out := [ ("label", get props "label"); ("helperText", get props "helperText");
                ("required", get props "required"); ("options", get props "options") ]).
  change (get out "label") with (get props "label").
  change (get out "helperText") with (get props "helperText").
  change (get out "required") with (get props "required").
  change (get out "options") with (get props "options").
  now rewrite E1, E2, E3, E4.
Qed.

Lemma alloc_fresh (s : State) : heap s !! fresh (dom (heap s)) = None.
Proof. apply not_elem_of_dom, is_fresh. Qed.

Lemma checkbox_onBlur_rejected (upd : UpdateElement) (element : FormElementInstance)
    (values : JsValue) (s : State) :
  safeParse Checkbox.propertiesSchema values = None ->
  Checkbox.onBlur upd element values s = (Normal tt, s).
Proof. intros H. unfold Checkbox.onBlur, handleSubmit, zodResolver. now rewrite H. Qed.

Lemma checkbox_onBlur_accepted (upd : UpdateElement) (element : FormElementInstance)
    (values data : JsValue) (s : State) :
  safeParse Checkbox.propertiesSchema values = Some data ->
  Checkbox.onBlur upd element values s
    = upd (inst_id element) (with_extraAttributes element (fresh (dom (heap s))))
        (with_new_object s data).
Proof.
  intros H. unfold Checkbox.onBlur, handleSubmit, zodResolver. rewrite H.
  destruct (checkbox_parse_output _ _ H) as (props & -> & -> & _). reflexivity.
Qed.

Lemma group_onBlur_rejected (upd : UpdateElement) (element : FormElementInstance)
    (values : JsValue) (s : State) :
  safeParse CheckboxGroup.propertiesSchema values = None ->
  CheckboxGroup.onBlur upd element values s = (Normal tt, s).
Proof. intros H. unfold CheckboxGroup.onBlur, handleSubmit, zodResolver. now rewrite H. Qed.

Lemma group_onBlur_accepted (upd : UpdateElement) (element : FormElementInstance)
    (values data : JsValue) (s : State) :
  safeParse CheckboxGroup.propertiesSchema values = Some data ->
  CheckboxGroup.onBlur upd element values s
    = upd (inst_id element) (with_extraAttributes element (fresh (dom (heap s))))
        (with_new_object s data).
Proof.
  intros H. unfold CheckboxGroup.onBlur, handleSubmit, zodResolver. rewrite H.
  destruct (group_parse_output _ _ H) as (props & -> & -> & _). reflexivity.
Qed.

(** C7: the properties editor commits a configuration only when the edited
    values pass the field's [propertiesSchema].  When they do not, the whole
    state, the document included, is left as it was.  When they do,
    [updateElement] is called once, for the edited instance, with a newly
    allocated configuration object that holds exactly the validated
    attributes (label, helperText, required, and options for the group), and
    that object passes the schema again. *)
Theorem onBlur_commits_only_valid (upd : UpdateElement) (element : FormElementInstance)
    (values : JsValue) (s : State) :
  (safeParse Checkbox.propertiesSchema values = None ->
   Checkbox.onBlur upd element values s = (Normal tt, s)) /\
  (forall data, safeParse Checkbox.propertiesSchema values = Some data ->
     heap s !! fresh (dom (heap s)) = None /\
     Checkbox.onBlur upd element values s
       = upd (inst_id element) (with_extraAttributes element (fresh (dom (heap s))))
           (with_new_object s data) /\
     (exists props, values = JObject props /\
        data = JObject [ ("label", get props "label");
                         ("helperText", get props "helperText");
                         ("required", get props "required") ]) /\
     safeParse Checkbox.propertiesSchema data = Some data) /\
  (safeParse CheckboxGroup.propertiesSchema values = None ->
   CheckboxGroup.onBlur upd element values s = (Normal tt, s)) /\
  (forall data, safeParse CheckboxGroup.propertiesSchema values = Some data ->
     heap s !! fresh (dom (heap s)) = None /\
     CheckboxGroup.onBlur upd element values s
       = upd (inst_id element) (with_extraAttributes element (fresh (dom (heap s))))
           (with_new_object s data) /\
     (exists props, values = JObject props /\
        data = JObject [ ("label", get props "label");
                         ("helperText", get props "helperText");
                         ("required", get props "required");
                         ("options", get props "options") ]) /\
     safeParse CheckboxGroup.propertiesSchema data = Some data).
Proof.
  repeat apply conj.
  - apply checkbox_onBlur_rejected.
  - intros data H. split; [apply alloc_fresh|].
    split; [now apply checkbox_onBlur_accepted|].
    destruct (checkbox_parse_output _ _ H) as (props & -> & -> & Hagain). eauto.
  - apply group_onBlur_rejected.
  - intros data H. split; [apply alloc_fresh|].
    split; [now apply group_onBlur_accepted|].
    destruct (group_parse_output _ _ H) as (props & -> & -> & Hagain). eauto.
Qed.

Lemma onBlur_commits_only_valid_witness :
  safeParse Checkbox.propertiesSchema edited_values = Some edited_data /\
  safeParse CheckboxGroup.propertiesSchema edited_values = None /\
  Checkbox.onBlur updateElement field_A edited_values example_state
    = updateElement (inst_id field_A)
        (with_extraAttributes field_A (fresh (dom (heap example_state))))
        (with_new_object example_state edited_data) /\
  safeParse Checkbox.propertiesSchema edited_data = Some edited_data /\
  CheckboxGroup.onBlur updateElement field_A edited_values example_state
    = (Normal tt, example_state).
Proof.
  split; [reflexivity|]. split; [reflexivity|].
  destruct (onBlur_commits_only_valid updateElement field_A edited_values example_state)
    as (_ & Hok & Hbad & _).
  destruct (Hok edited_data) as (_ & Hrun & _ & Hagain); [reflexivity|].
  split; [exact Hrun|]. split; [exact Hagain|]. apply Hbad. reflexivity.
Defined.

(** ** Sharing of the default configuration *)

(** C4 as stated fails: the instances constructed for two distinct ids hold
    the same reference, the module-level [extraAttributes] object, and a
    write through one of them is read back through the other. *)
Lemma construct_aliases_default :
  js "a" <> js "b" /\
  inst_extraAttributes (Checkbox.construct (js "a"))
    = inst_extraAttributes (Checkbox.construct (js "b")) /\
  inst_extraAttributes (CheckboxGroup.construct (js "a"))
    = inst_extraAttributes (CheckboxGroup.construct (js "b")) /\
  (let s' := (set_property (inst_extraAttributes (Checkbox.construct (js "a")))
                "label" (JString (js "changed")) initial_state).2 in
   (load (inst_extraAttributes (Checkbox.construct (js "b"))) initial_state).1
     = Normal Checkbox.extraAttributes /\
   (load (inst_extraAttributes (Checkbox.construct (js "b"))) s').1
     = Normal (JObject [ ("label", JString (js "changed"));
                         ("helperText", JString (js "You must agree to proceed"));
                         ("required", JBool true) ])).
Proof.
  split; [discriminate|]. split; [reflexivity|]. split; [reflexivity|].
  split; reflexivity.
Qed.

Lemma load_after_commit (upd : UpdateElement) (id : jsstring) (element : FormElementInstance)
    (l : loc) (v data : JsValue) (s : State) :
  (forall id' element' st, heap (upd id' element' st).2 = heap st) ->
  heap s !! l = Some v ->
  heap (upd id element (with_new_object s data)).2 !! l = Some v.
Proof.
  intros Hupd Hl. rewrite Hupd. simpl. rewrite lookup_insert_ne; [exact Hl|].
  intros E. pose proof (alloc_fresh s) as Hfresh. rewrite E in Hfresh. congruence.
Qed.

(** C4 (as the code has it): [construct] copies nothing.  Every instance it
    returns carries the given id, the tag, and a reference to the one
    module-level [extraAttributes] object, so two constructed instances share
    their configuration object and, in a state where the defaults are as the
    modules allocated them, both read the default template.  The editor never
    writes to that object: [applyChanges] stores the edited attributes in a
    newly allocated object, so after an edit of one constructed instance the
    other still reads the default template (provided [updateElement] itself
    leaves the heap alone). *)
Theorem construct_shares_default (upd : UpdateElement) (id1 id2 : jsstring)
    (values : JsValue) (s : State) :
  (forall id element st, heap (upd id element st).2 = heap st) ->
  heap s !! Checkbox.extraAttributes_ref = Some Checkbox.extraAttributes ->
  heap s !! CheckboxGroup.extraAttributes_ref = Some CheckboxGroup.extraAttributes ->
  (inst_id (Checkbox.construct id1) = id1 /\
   inst_type (Checkbox.construct id1) = Checkbox.type /\
   inst_extraAttributes (Checkbox.construct id1) = Checkbox.extraAttributes_ref /\
   inst_extraAttributes (Checkbox.construct id1)
     = inst_extraAttributes (Checkbox.construct id2) /\
   load (inst_extraAttributes (Checkbox.construct id2)) s
     = (Normal Checkbox.extraAttributes, s) /\
   (let s' := (Checkbox.onBlur upd (Checkbox.construct id1) values s).2 in
    load (inst_extraAttributes (Checkbox.construct id2)) s'
      = (Normal Checkbox.extraAttributes, s'))) /\
  (inst_id (CheckboxGroup.construct id1) = id1 /\
   inst_type (CheckboxGroup.construct id1) = CheckboxGroup.type /\
   inst_extraAttributes (CheckboxGroup.construct id1) = CheckboxGroup.extraAttributes_ref /\
   inst_extraAttributes (CheckboxGroup.construct id1)
     = inst_extraAttributes (CheckboxGroup.construct id2) /\
   load (inst_extraAttributes (CheckboxGroup.construct id2)) s
     = (Normal CheckboxGroup.extraAttributes, s) /\
   (let s' := (CheckboxGroup.onBlur upd (CheckboxGroup.construct id1) values s).2 in
    load (inst_extraAttributes (CheckboxGroup.construct id2)) s'
      = (Normal CheckboxGroup.extraAttributes, s'))).
Proof.
  intros Hupd H1 H2. split.
  - do 4 (split; [reflexivity|]). split; [now apply load_allocated|].
    cbv zeta. apply load_allocated.
    destruct (safeParse Checkbox.propertiesSchema values) as [data|] eqn:E.
    + rewrite (checkbox_onBlur_accepted _ _ _ _ _ E). now apply load_after_commit.
    + now rewrite (checkbox_onBlur_rejected _ _ _ _ E).
  - do 4 (split; [reflexivity|]). split; [now apply load_allocated|].
    cbv zeta. apply load_allocated.
    destruct (safeParse CheckboxGroup.propertiesSchema values) as [data|] eqn:E.
    + rewrite (group_onBlur_accepted _ _ _ _ _ E). now apply load_after_commit.
    + now rewrite (group_onBlur_rejected _ _ _ _ E).
Qed.

Lemma updateElement_heap (id : jsstring) (element : FormElementInstance) (st : State) :
  heap (updateElement id element st).2 = heap st.
Proof. reflexivity. Qed.

Lemma construct_shares_default_witness :
  (forall id element st, heap (updateElement id element st).2 = heap st) /\
  heap initial_state !! Checkbox.extraAttributes_ref = Some Checkbox.extraAttributes /\
  heap initial_state !! CheckboxGroup.extraAttributes_ref = Some CheckboxGroup.extraAttributes /\
  inst_extraAttributes (Checkbox.construct (js "a"))
    = inst_extraAttributes (Checkbox.construct (js "b")) /\
  (let s' := (Checkbox.onBlur updateElement (Checkbox.construct (js "a")) edited_values
                initial_state).2 in
   load (inst_extraAttributes (Checkbox.construct (js "b"))) s'
     = (Normal Checkbox.extraAttributes, s')).
Proof.
  split; [exact updateElement_heap|]. split; [reflexivity|]. split; [reflexivity|].
  destruct (construct_shares_default updateElement (js "a") (js "b") edited_values
              initial_state updateElement_heap eq_refl eq_refl)
    as ((_ & _ & _ & Hshare & _ & Hframe) & _).
  split; [exact Hshare | exact Hframe].
Defined.

(** ** The registry *)

Lemma register_keeps_tags (defs : list FormElement) (reg : gmap ElementsType FormElement) :
  (forall tag d, reg !! tag = Some d -> fe_type d = tag) ->
  forall tag d,
    foldl (fun reg d => <[fe_type d := d]> reg) reg defs !! tag = Some d -> fe_type d = tag.
Proof.
  revert reg. induction defs as [|d0 rest IH]; intros reg Hreg tag d; simpl.
  - apply Hreg.
  - apply IH. intros tag' d'. rewrite lookup_insert. case_decide.
    + now intros [= <-].
    + apply Hreg.
Qed.

Lemma register_lookup_type (defs : list FormElement) (tag : ElementsType) (d : FormElement) :
  register defs !! tag = Some d -> fe_type d = tag.
Proof.
  apply register_keeps_tags. intros tag' d'. now rewrite lookup_empty.
Qed.




(** Both definitions of the source carry the tag "CheckboxField": entered one
    after the other, the later one is the registered one. *)
Lemma register_both :
  register [Checkbox.CheckboxFieldFormElement; CheckboxGroup.CheckboxFieldFormElement]
    !! "CheckboxField" = Some CheckboxGroup.CheckboxFieldFormElement.
Proof. unfold register. simpl. apply lookup_insert_eq. Qed.

(** ** Determinism of submission validation *)

Lemma checkbox_validate_state (formElement : FormElementInstance) (currentValue : JsValue)
    (s : State) :
  (Checkbox.validate formElement currentValue s).2 = s.
Proof.
  unfold Checkbox.validate, bind, load.
  destruct (default JUndefined (heap s !! inst_extraAttributes formElement)) as
    [| |b|n|str|xs|props]; simpl; try reflexivity;
    match goal with |- context [if ?c then _ else _] => now destruct c end.
Qed.

Lemma group_validate_state (formElement : FormElementInstance) (currentValue : JsValue)
    (s : State) :
  (CheckboxGroup.validate formElement currentValue s).2 = s.
Proof.
  unfold CheckboxGroup.validate, bind, load.
  destruct (default JUndefined (heap s !! inst_extraAttributes formElement)) as
    [| |b|n|str|xs|props]; simpl; try reflexivity;
    match goal with |- context [if ?c then _ else _] =>
      destruct c; [|reflexivity]; now destruct currentValue
    end.
Qed.

Lemma validateFields_state (reg : gmap ElementsType FormElement)
    (fields : list FormElementInstance) (submittedValues : gmap jsstring jsstring)
    (report : ValidationReport) (s : State) :
  checkbox_registry reg ->
  (validateFields reg fields submittedValues report s).2 = s.
Proof.
  intros Hreg. revert report. induction fields as [|field rest IH]; intros report; simpl.
  - reflexivity.
  - unfold bind at 1. unfold resolve.
    destruct (reg !! inst_type field) as [d|] eqn:E; simpl; [|reflexivity].
    unfold bind.
    set (value := JString (default [] (submittedValues !! inst_id field))).
    assert (Hs : (fe_validate d field value s).2 = s).
    { destruct (Hreg _ _ E) as [-> | ->];
        [apply checkbox_validate_state | apply group_validate_state]. }
    destruct (fe_validate d field value s) as [[valid|e] s1]; simpl in Hs; subst s1.
    + apply IH.
    + reflexivity.
Qed.

Lemma checkbox_validate_reads_configuration (formElement : FormElementInstance)
    (currentValue : JsValue) (s s' : State) :
  heap s' !! inst_extraAttributes formElement = heap s !! inst_extraAttributes formElement ->
  (Checkbox.validate formElement currentValue s').1
    = (Checkbox.validate formElement currentValue s).1.
Proof.
  intros H. unfold Checkbox.validate, bind, load. rewrite H.
  destruct (default JUndefined (heap s !! inst_extraAttributes formElement)) as
    [| |b|n|str|xs|props]; simpl; try reflexivity;
    match goal with |- context [if ?c then _ else _] => now destruct c end.
Qed.

Lemma group_validate_reads_configuration (formElement : FormElementInstance)
    (currentValue : JsValue) (s s' : State) :
  heap s' !! inst_extraAttributes formElement = heap s !! inst_extraAttributes formElement ->
  (CheckboxGroup.validate formElement currentValue s').1
    = (CheckboxGroup.validate formElement currentValue s).1.
Proof.
  intros H. unfold CheckboxGroup.validate, bind, load. rewrite H.
  destruct (default JUndefined (heap s !! inst_extraAttributes formElement)) as
    [| |b|n|str|xs|props]; simpl; try reflexivity;
    match goal with |- context [if ?c then _ else _] =>
      destruct c; [|reflexivity]; now destruct currentValue
    end.
Qed.

(** C8: submission validation has no hidden state.  Each of the two value
    validators returns the state it was given, whatever the submitted value,
    and its outcome depends on the state only through the configuration object
    of the instance.  A run of the validator over a whole document returns the
    state it was given too, so a second run with the same document and the
    same submitted values, started where the first one ended, produces the
    same report (or the same exception). *)
Theorem validateForm_deterministic (reg : gmap ElementsType FormElement)
    (document : Document) (submittedValues : gmap jsstring jsstring) (s : State) :
  checkbox_registry reg ->
  (forall formElement currentValue,
     (Checkbox.validate formElement currentValue s).2 = s /\
     (CheckboxGroup.validate formElement currentValue s).2 = s) /\
  (forall formElement currentValue s',
     heap s' !! inst_extraAttributes formElement
       = heap s !! inst_extraAttributes formElement ->
     (Checkbox.validate formElement currentValue s').1
       = (Checkbox.validate formElement currentValue s).1 /\
     (CheckboxGroup.validate formElement currentValue s').1
       = (CheckboxGroup.validate formElement currentValue s).1) /\
  (validateForm reg document submittedValues s).2 = s /\
  validateForm reg document submittedValues (validateForm reg document submittedValues s).2
    = validateForm reg document submittedValues s.
Proof.
  intros Hreg.
  assert (Hs : (validateForm reg document submittedValues s).2 = s)
    by now apply validateFields_state.
  split; [|split; [|split; [exact Hs | now rewrite Hs]]].
  - intros formElement currentValue.
    split; [apply checkbox_validate_state | apply group_validate_state].
  - intros formElement currentValue s' H.
    split; [now apply checkbox_validate_reads_configuration
           | now apply group_validate_reads_configuration].
Qed.

Lemma checkbox_registry_both :
  checkbox_registry
    (register [Checkbox.CheckboxFieldFormElement; CheckboxGroup.CheckboxFieldFormElement]).
Proof.
  intros tag d. unfold register. simpl.
  rewrite lookup_insert. case_decide; [intros [= <-]; now right|].
  rewrite lookup_insert. case_decide; [intros [= <-]; now left|].
  now rewrite lookup_empty.
Qed.

Lemma validateForm_deterministic_witness :
  checkbox_registry
    (register [Checkbox.CheckboxFieldFormElement; CheckboxGroup.CheckboxFieldFormElement]) /\
  (validateForm
     (register [Checkbox.CheckboxFieldFormElement; CheckboxGroup.CheckboxFieldFormElement])
     (designer example_state) {[ js "B" := js "Option 1" ]} example_state).2 = example_state /\
  validateForm
    (register [Checkbox.CheckboxFieldFormElement; CheckboxGroup.CheckboxFieldFormElement])
    (designer example_state) {[ js "B" := js "Option 1" ]}
    (validateForm
       (register [Checkbox.CheckboxFieldFormElement; CheckboxGroup.CheckboxFieldFormElement])
       (designer example_state) {[ js "B" := js "Option 1" ]} example_state).2
  = validateForm
      (register [Checkbox.CheckboxFieldFormElement; CheckboxGroup.CheckboxFieldFormElement])
      (designer example_state) {[ js "B" := js "Option 1" ]} example_state.
Proof.
  split; [exact checkbox_registry_both|].
  destruct (validateForm_deterministic
              (register [Checkbox.CheckboxFieldFormElement;
                         CheckboxGroup.CheckboxFieldFormElement])
              (designer example_state) {[ js "B" := js "Option 1" ]} example_state
              checkbox_registry_both) as (_ & _ & Hstate & Hagain).
  split; [exact Hstate | exact Hagain].
Defined.

(** * Further properties: the components around the validators *)

(** ** [split], [join] and [trim] *)

Lemma filter_all {A} (P : A -> Prop) `{forall x, Decision (P x)} (l : list A) :
  Forall P l -> filter P l = l.
Proof.
  induction 1 as [|x l Hx _ IH]; [reflexivity|].
  rewrite filter_cons_True by exact Hx. now rewrite IH.
Qed.

Lemma split_no_sep (sep : code_unit) (s : jsstring) :
  ~ In sep s -> split sep s = [s].
Proof.
  induction s as [|c rest IH]; intros Hs; simpl; [reflexivity|].
  destruct (N.eqb_spec c sep) as [->|_]; [exfalso; apply Hs; now left|].
  rewrite IH; [reflexivity|]. intros Hin. apply Hs. now right.
Qed.

Lemma split_app_sep (sep : code_unit) (x t : jsstring) :
  ~ In sep x -> split sep (x ++ sep :: t) = x :: split sep t.
Proof.
  induction x as [|c x' IH]; intros Hx; simpl.
  - now rewrite N.eqb_refl.
  - destruct (N.eqb_spec c sep) as [->|_]; [exfalso; apply Hx; now left|].
    rewrite IH; [reflexivity|]. intros Hin. apply Hx. now right.
Qed.

Lemma split_cons_other (sep c : code_unit) (y : jsstring) (pieces : list jsstring)
    (t : jsstring) :
  c <> sep -> split sep t = y :: pieces -> split sep (c :: t) = (c :: y) :: pieces.
Proof.
  intros Hc Ht. simpl. destruct (N.eqb_spec c sep) as [->|_]; [contradiction|].
  now rewrite Ht.
Qed.

(** Splitting at the separator undoes joining with it. *)
Lemma split_join (sep : code_unit) (xs : list jsstring) :
  xs <> [] -> Forall (fun x => ~ In sep x) xs -> split sep (join [sep] xs) = xs.
Proof.
  intros Hne Hall. induction Hall as [|x rest Hx Hrest IH]; [contradiction|].
  destruct rest as [|y rest'].
  - simpl. now apply split_no_sep.
  - change (join [sep] (x :: y :: rest')) with (x ++ sep :: join [sep] (y :: rest')).
    rewrite split_app_sep by exact Hx. now rewrite IH.
Qed.

(** Joining with ", " and splitting at "," leaves a space in front of every
    piece but the first. *)
Lemma split_join_comma_space (x : jsstring) (rest : list jsstring) :
  Forall (fun x => ~ In comma x) (x :: rest) ->
  split comma (join [comma; space] (x :: rest)) = x :: map (cons space) rest.
Proof.
  revert x. induction rest as [|y rest' IH]; intros x Hall.
  - simpl. apply split_no_sep. now inversion Hall.
  - change (join [comma; space] (x :: y :: rest'))
      with (x ++ comma :: space :: join [comma; space] (y :: rest')).
    inversion Hall as [|? ? Hx Hrest]; subst.
    rewrite split_app_sep by exact Hx. f_equal.
    apply split_cons_other; [discriminate|]. now apply IH.
Qed.

Lemma split_pieces_no_sep (sep : code_unit) (s : jsstring) :
  Forall (fun piece => ~ In sep piece) (split sep s).
Proof.
  induction s as [|c rest IH]; simpl.
  - constructor; [intros [] | constructor].
  - destruct (N.eqb_spec c sep) as [->|Hc].
    + constructor; [intros [] | exact IH].
    + destruct (split sep rest) as [|piece pieces]; [repeat constructor; intros [E|[]]; congruence|].
      inversion IH as [|? ? Hp Hps]; subst. constructor; [|exact Hps].
      intros [E|Hin]; [congruence | contradiction].
Qed.

Lemma split_pieces_in (sep : code_unit) (s piece : jsstring) (c : code_unit) :
  In piece (split sep s) -> In c piece -> In c s.
Proof.
  revert piece. induction s as [|d rest IH]; intros piece; simpl.
  - intros [<-|[]] [].
  - destruct (N.eqb_spec d sep) as [->|Hd].
    + intros [<-|Hin] Hc; [destruct Hc | right; eauto].
    + destruct (split sep rest) as [|first pieces] eqn:E.
      * intros [<-|[]] [<-|[]]. now left.
      * intros [<-|Hin] Hc.
        -- destruct Hc as [<-|Hc]; [now left | right; apply (IH first); [now left | exact Hc]].
        -- right. apply (IH piece); [now right | exact Hc].
Qed.

Lemma truthy_string_length (s : jsstring) : truthy_string s = (0 <? length s).
Proof. now destruct s. Qed.

Lemma truthy_trim (s : jsstring) : truthy_string (trim s) = has_non_white_space s.
Proof. rewrite truthy_string_length. apply trim_nonempty. Qed.

Lemma has_non_white_space_app (s t : jsstring) :
  has_non_white_space (s ++ t) = has_non_white_space s || has_non_white_space t.
Proof. apply existsb_app. Qed.

Lemma trimStart_In (c : code_unit) (s : jsstring) : In c (trimStart s) -> In c s.
Proof.
  induction s as [|d rest IH]; simpl; [tauto|].
  destruct (is_white_space d); [right; auto | auto].
Qed.

Lemma trim_In (c : code_unit) (s : jsstring) : In c (trim s) -> In c s.
Proof.
  unfold trim, trimEnd. intros H. apply trimStart_In.
  apply in_rev in H. apply trimStart_In in H. now apply in_rev.
Qed.

Lemma trimStart_starts_clean (s : jsstring) : starts_clean (trimStart s).
Proof.
  induction s as [|c rest IH]; simpl; [exact I|].
  destruct (is_white_space c) eqn:E; [exact IH | exact E].
Qed.

Lemma trimStart_clean (s : jsstring) : starts_clean s -> trimStart s = s.
Proof. destruct s as [|c rest]; simpl; [reflexivity|]. now intros ->. Qed.

Lemma trimStart_prefix (s : jsstring) : exists w, s = w ++ trimStart s.
Proof.
  induction s as [|c rest [w IH]]; simpl; [now exists []|].
  destruct (is_white_space c); [|now exists []].
  exists (c :: w). simpl. now rewrite <- IH.
Qed.

Lemma trimEnd_starts_clean (s : jsstring) : starts_clean s -> starts_clean (trimEnd s).
Proof.
  intros Hs. unfold trimEnd. destruct (trimStart_prefix (rev s)) as [w Hw].
  apply (f_equal (@rev code_unit)) in Hw. rewrite rev_involutive, rev_app_distr in Hw.
  destruct (rev (trimStart (rev s))) as [|c r]; [exact I|].
  rewrite Hw in Hs. exact Hs.
Qed.

Lemma trim_idempotent (s : jsstring) : trim (trim s) = trim s.
Proof.
  unfold trim at 1.
  rewrite (trimStart_clean (trim s))
    by (apply trimEnd_starts_clean, trimStart_starts_clean).
  unfold trim, trimEnd. rewrite rev_involutive.
  now rewrite (trimStart_clean (trimStart _)) by apply trimStart_starts_clean.
Qed.

Lemma trim_white_space_cons (c : code_unit) (s : jsstring) :
  is_white_space c = true -> trim (c :: s) = trim s.
Proof. intros H. unfold trim. simpl. now rewrite H. Qed.

(** ** The form component of the single checkbox *)

(** X1: what the single checkbox shows after a click agrees with what the
    validator will say at submit time.  The value handed to [submitValue] is
    filed under the instance's id, and [validate] accepts it exactly when
    [handleChange] left no error message, whatever the configuration holds for
    [required]. *)
Theorem checkbox_handleChange_agrees_with_validate (element : FormElementInstance)
    (props : list (string * JsValue)) (isChecked : bool)
    (st : CheckboxFormComponent.ComponentState) (s : State) :
  heap s !! inst_extraAttributes element = Some (JObject props) ->
  exists st' value,
    CheckboxFormComponent.handleChange element (get props "required") true isChecked st
      = (st', [(inst_id element, value)]) /\
    CheckboxFormComponent.checked st' = isChecked /\
    Checkbox.validate element (JString value) s
      = (Normal (match CheckboxFormComponent.error st' with None => true | Some _ => false end),
         s).
Proof.
  intros H. unfold CheckboxFormComponent.handleChange, CheckboxFormComponent.validateField.
  destruct (ToBoolean (get props "required")) eqn:E, isChecked; simpl;
    eexists; eexists; (split; [reflexivity|]); (split; [reflexivity|]);
    rewrite (checkbox_validate_eq _ _ _ _ H), E; reflexivity.
Qed.

Lemma checkbox_handleChange_agrees_with_validate_witness :
  heap example_state !! inst_extraAttributes field_A = Some (JObject required_checkbox_props) /\
  exists st' value,
    CheckboxFormComponent.handleChange field_A (get required_checkbox_props "required") true
      false (CheckboxFormComponent.mount JUndefined)
      = (st', [(inst_id field_A, value)]) /\
    CheckboxFormComponent.checked st' = false /\
    Checkbox.validate field_A (JString value) example_state
      = (Normal (match CheckboxFormComponent.error st' with None => true | Some _ => false end),
         example_state).
Proof.
  split; [reflexivity|].
  apply (checkbox_handleChange_agrees_with_validate field_A required_checkbox_props false
           (CheckboxFormComponent.mount JUndefined) example_state).
  reflexivity.
Defined.

(** X2: the single checkbox restores what it submitted.  Every call that
    [handleChange] makes to [submitValue] carries the instance's id and a
    value from which a later first render (that value as [defaultValue])
    comes up with the same checked state; a first render without a default
    value comes up unchecked. *)
Theorem checkbox_submitted_value_restores (element : FormElementInstance)
    (required : JsValue) (submitValue isChecked : bool)
    (st : CheckboxFormComponent.ComponentState) :
  Forall (fun call =>
            call.1 = inst_id element /\
            CheckboxFormComponent.checked (CheckboxFormComponent.mount (JString call.2))
              = CheckboxFormComponent.checked
                  (CheckboxFormComponent.handleChange element required submitValue
                     isChecked st).1)
    (CheckboxFormComponent.handleChange element required submitValue isChecked st).2 /\
  CheckboxFormComponent.checked (CheckboxFormComponent.mount JUndefined) = false.
Proof.
  split; [|reflexivity].
  unfold CheckboxFormComponent.handleChange, CheckboxFormComponent.validateField.
  destruct (ToBoolean required), isChecked, submitValue; simpl;
    repeat constructor.
Qed.

(** ** The form component of the checkbox group *)

Lemma join_head_non_blank (sep x : jsstring) (rest : list jsstring) :
  has_non_white_space x = true -> has_non_white_space (join sep (x :: rest)) = true.
Proof.
  intros Hx. destruct rest as [|y rest']; [exact Hx|].
  change (join sep (x :: y :: rest')) with (x ++ sep ++ join sep (y :: rest')).
  now rewrite has_non_white_space_app, Hx.
Qed.

Lemma non_blank_not_empty (s : jsstring) : has_non_white_space s = true -> s <> [].
Proof. now destruct s. Qed.

(** X3: the comma-separated encoding of a selection round-trips.  If every
    selected option has a character that is not white space and none contains
    a comma, the selection read back from the joined string is the selection
    itself, in the same order; this includes the empty selection. *)
Theorem group_selection_round_trip (selected : list jsstring) :
  Forall storable selected ->
  CheckboxGroupFormComponent.initialSelected (Some (join [comma] selected)) = selected.
Proof.
  intros Hall. destruct selected as [|x rest]; [reflexivity|].
  unfold CheckboxGroupFormComponent.initialSelected.
  assert (Hx : has_non_white_space x = true) by (inversion Hall as [|? ? [? _] _]; assumption).
  assert (Htruthy : truthy_string (join [comma] (x :: rest)) = true).
  { pose proof (non_blank_not_empty _ (join_head_non_blank [comma] x rest Hx)) as Hne.
    now destruct (join [comma] (x :: rest)). }
  rewrite Htruthy, split_join; [|discriminate|].
  - apply filter_all. eapply Forall_impl; [exact Hall|].
    intros o [Ho _]. now rewrite truthy_trim.
  - eapply Forall_impl; [exact Hall|]. now intros o [_ Ho].
Qed.

Lemma group_selection_round_trip_witness :
  Forall storable [js "Option 2"; js " spaced out "] /\
  CheckboxGroupFormComponent.initialSelected
    (Some (join [comma] [js "Option 2"; js " spaced out "]))
  = [js "Option 2"; js " spaced out "].
Proof.
  assert (H : Forall storable [js "Option 2"; js " spaced out "]).
  { repeat constructor; vm_compute; intuition discriminate. }
  split; [exact H|].
  apply (group_selection_round_trip [js "Option 2"; js " spaced out "] H).
Defined.

(** X4: a click changes the clicked option only.  After checking, the option
    is in the selection; after unchecking, no occurrence of it is left; and
    the membership of every other option is what it was. *)
Theorem group_newSelected_membership (selectedOptions : list jsstring)
    (option other : jsstring) (isChecked : bool) :
  other <> option ->
  In option (CheckboxGroupFormComponent.newSelected selectedOptions option true) /\
  ~ In option (CheckboxGroupFormComponent.newSelected selectedOptions option false) /\
  (In other (CheckboxGroupFormComponent.newSelected selectedOptions option isChecked)
   <-> In other selectedOptions).
Proof.
  intros Hne. unfold CheckboxGroupFormComponent.newSelected. split; [|split].
  - apply in_or_app. right. now left.
  - rewrite <- list_elem_of_In, list_elem_of_filter. tauto.
  - destruct isChecked.
    + rewrite in_app_iff. simpl. intuition congruence.
    + rewrite <- !list_elem_of_In, list_elem_of_filter. tauto.
Qed.

Lemma group_newSelected_membership_witness :
  js "b" <> js "a" /\
  In (js "a") (CheckboxGroupFormComponent.newSelected [js "b"; js "a"; js "a"] (js "a") true) /\
  ~ In (js "a") (CheckboxGroupFormComponent.newSelected [js "b"; js "a"; js "a"] (js "a") false) /\
  (In (js "b") (CheckboxGroupFormComponent.newSelected [js "b"; js "a"; js "a"] (js "a") false)
   <-> In (js "b") [js "b"; js "a"; js "a"]).
Proof.
  assert (H : js "b" <> js "a") by discriminate.
  split; [exact H|].
  apply (group_newSelected_membership [js "b"; js "a"; js "a"] (js "a") (js "b") false H).
Defined.

(** X5: checking an option that was not selected and unchecking it again
    gives back the selection as it was, order included. *)
Theorem group_check_uncheck (selectedOptions : list jsstring) (option : jsstring) :
  ~ In option selectedOptions ->
  CheckboxGroupFormComponent.newSelected
    (CheckboxGroupFormComponent.newSelected selectedOptions option true) option false
  = selectedOptions.
Proof.
  intros Hnot. unfold CheckboxGroupFormComponent.newSelected.
  rewrite filter_app, filter_cons_False, filter_nil, app_nil_r by tauto.
  apply filter_all. apply Forall_forall. intros o Ho E. subst o.
  apply Hnot. now apply list_elem_of_In.
Qed.

Lemma group_check_uncheck_witness :
  ~ In (js "c") [js "b"; js "a"] /\
  CheckboxGroupFormComponent.newSelected
    (CheckboxGroupFormComponent.newSelected [js "b"; js "a"] (js "c") true) (js "c") false
  = [js "b"; js "a"].
Proof.
  assert (H : ~ In (js "c") [js "b"; js "a"]) by (intros [E|[E|[]]]; discriminate).
  split; [exact H|].
  apply (group_check_uncheck [js "b"; js "a"] (js "c") H).
Defined.

Lemma join_non_blank (selected : list jsstring) :
  Forall (fun o => has_non_white_space o = true) selected ->
  has_non_white_space (join [comma] selected) = negb (length selected =? 0).
Proof.
  intros Hall. destruct Hall as [|x rest Hx _]; [reflexivity|].
  now rewrite join_head_non_blank.
Qed.

(** X6: for a group whose options all have a character that is not white
    space, the message shown after a click agrees with the validator.  The
    value handed to [submitValue] is the new selection joined with commas,
    filed under the instance's id, and [validate] accepts it exactly when
    [handleChange] left no error message. *)
Theorem group_handleChange_agrees_with_validate (element : FormElementInstance)
    (props : list (string * JsValue)) (option : jsstring) (isChecked : bool)
    (st : CheckboxGroupFormComponent.ComponentState) (s : State) :
  heap s !! inst_extraAttributes element = Some (JObject props) ->
  Forall (fun o => has_non_white_space o = true)
    (option :: CheckboxGroupFormComponent.selectedOptions st) ->
  exists st',
    CheckboxGroupFormComponent.handleChange element (get props "required") true option
      isChecked st
    = (st', [(inst_id element,
              join [comma] (CheckboxGroupFormComponent.selectedOptions st'))]) /\
    CheckboxGroupFormComponent.selectedOptions st'
      = CheckboxGroupFormComponent.newSelected
          (CheckboxGroupFormComponent.selectedOptions st) option isChecked /\
    CheckboxGroup.validate element
      (JString (join [comma] (CheckboxGroupFormComponent.selectedOptions st'))) s
    = (Normal (match CheckboxGroupFormComponent.error st' with
               | None => true | Some _ => false end), s).
Proof.
  intros H Hall.
  set (selected := CheckboxGroupFormComponent.newSelected
                     (CheckboxGroupFormComponent.selectedOptions st) option isChecked).
  assert (Hsel : Forall (fun o => has_non_white_space o = true) selected).
  { inversion Hall as [|? ? Ho Hrest]; subst. unfold selected,
      CheckboxGroupFormComponent.newSelected. destruct isChecked.
    - apply Forall_app. split; [exact Hrest | now constructor].
    - apply Forall_forall. intros o Hin. apply list_elem_of_filter in Hin as [_ Hin].
      rewrite Forall_forall in Hrest. now apply Hrest. }
  unfold CheckboxGroupFormComponent.handleChange, CheckboxGroupFormComponent.validateField.
  fold selected.
  destruct (ToBoolean (get props "required")) eqn:E, (length selected =? 0) eqn:L; simpl;
    eexists (CheckboxGroupFormComponent.mkComponentState selected _);
    (split; [reflexivity|]); (split; [reflexivity|]); simpl;
    rewrite (group_validate_string _ _ _ _ H), E; try reflexivity;
    now rewrite (join_non_blank _ Hsel), L.
Qed.

Lemma group_handleChange_agrees_with_validate_witness :
  heap example_state !! inst_extraAttributes field_B = Some (JObject required_group_props) /\
  Forall (fun o => has_non_white_space o = true)
    (js "Option 1"
     :: CheckboxGroupFormComponent.selectedOptions
          (CheckboxGroupFormComponent.mount (Some (js "Option 1")))) /\
  exists st',
    CheckboxGroupFormComponent.handleChange field_B (get required_group_props "required") true
      (js "Option 1") false (CheckboxGroupFormComponent.mount (Some (js "Option 1")))
    = (st', [(inst_id field_B,
              join [comma] (CheckboxGroupFormComponent.selectedOptions st'))]) /\
    CheckboxGroupFormComponent.selectedOptions st'
      = CheckboxGroupFormComponent.newSelected
          (CheckboxGroupFormComponent.selectedOptions
             (CheckboxGroupFormComponent.mount (Some (js "Option 1"))))
          (js "Option 1") false /\
    CheckboxGroup.validate field_B
      (JString (join [comma] (CheckboxGroupFormComponent.selectedOptions st'))) example_state
    = (Normal (match CheckboxGroupFormComponent.error st' with
               | None => true | Some _ => false end), example_state).
Proof.
  assert (Hall : Forall (fun o => has_non_white_space o = true)
                   (js "Option 1"
                    :: CheckboxGroupFormComponent.selectedOptions
                         (CheckboxGroupFormComponent.mount (Some (js "Option 1")))))
    by (repeat constructor).
  split; [reflexivity|]. split; [exact Hall|].
  apply (group_handleChange_agrees_with_validate field_B required_group_props (js "Option 1")
           false (CheckboxGroupFormComponent.mount (Some (js "Option 1"))) example_state
           eq_refl Hall).
Defined.

(** X7: a stored value from which the group restores at least one selected
    option always passes validation, required or not.  (The converse does not
    hold: the validator accepts ",", from which nothing is restored.) *)
Theorem group_restored_selection_is_valid (element : FormElementInstance)
    (props : list (string * JsValue)) (value : jsstring) (s : State) :
  heap s !! inst_extraAttributes element = Some (JObject props) ->
  CheckboxGroupFormComponent.initialSelected (Some value) <> [] ->
  CheckboxGroup.validate element (JString value) s = (Normal true, s).
Proof.
  intros H Hsel. rewrite (group_validate_string _ _ _ _ H).
  destruct (ToBoolean _); [|reflexivity]. f_equal. f_equal.
  unfold CheckboxGroupFormComponent.initialSelected in Hsel.
  destruct (truthy_string value); [|contradiction].
  destruct (filter _ (split comma value)) as [|piece pieces] eqn:E; [contradiction|].
  assert (Hin : piece ∈ filter (fun v => truthy_string (trim v) = true) (split comma value))
    by (rewrite E; left).
  apply list_elem_of_filter in Hin as [Hpiece Hin]. rewrite truthy_trim in Hpiece.
  apply has_non_white_space_spec in Hpiece as (c & Hc & Hws).
  apply has_non_white_space_spec. exists c. split; [|exact Hws].
  apply (split_pieces_in comma value piece c); [now apply list_elem_of_In | exact Hc].
Qed.

Lemma group_restored_selection_is_valid_witness :
  heap example_state !! inst_extraAttributes field_B = Some (JObject required_group_props) /\
  CheckboxGroupFormComponent.initialSelected (Some (js ",Option 2")) <> [] /\
  CheckboxGroup.validate field_B (JString (js ",Option 2")) example_state
    = (Normal true, example_state).
Proof.
  assert (H : CheckboxGroupFormComponent.initialSelected (Some (js ",Option 2")) <> [])
    by discriminate.
  split; [reflexivity|]. split; [exact H|].
  apply (group_restored_selection_is_valid field_B required_group_props (js ",Option 2")
           example_state eq_refl H).
Defined.

(** ** The options editor *)

Lemma parsedOptions_normal (optionsInput : jsstring) :
  Forall normal_option (CheckboxGroupPropertiesComponent.parsedOptions optionsInput).
Proof.
  apply Forall_forall. intros p Hp.
  unfold CheckboxGroupPropertiesComponent.parsedOptions in Hp.
  apply list_elem_of_filter in Hp as [Hlen Hp].
  apply list_elem_of_In, in_map_iff in Hp as (o & <- & Ho).
  split; [apply trim_idempotent|]. split; [intros E; rewrite E in Hlen; simpl in Hlen; lia|].
  intros Hin. apply trim_In in Hin.
  pose proof (split_pieces_no_sep comma optionsInput) as Hall.
  rewrite Forall_forall in Hall. apply (Hall o); [now apply list_elem_of_In | exact Hin].
Qed.

Lemma option_1_normal : normal_option (js "Option 1").
Proof.
  split; [reflexivity|]. split; [discriminate|].
  intros H. vm_compute in H. intuition discriminate.
Qed.

Lemma finalOptions_normal (optionsInput : jsstring) :
  CheckboxGroupPropertiesComponent.finalOptions optionsInput <> [] /\
  Forall normal_option (CheckboxGroupPropertiesComponent.finalOptions optionsInput).
Proof.
  unfold CheckboxGroupPropertiesComponent.finalOptions.
  pose proof (parsedOptions_normal optionsInput) as Hp.
  destruct (CheckboxGroupPropertiesComponent.parsedOptions optionsInput) as [|p ps]; simpl.
  - split; [discriminate|]. constructor; [apply option_1_normal | constructor].
  - split; [discriminate | exact Hp].
Qed.

(** The text written back into the input parses to the options it was made
    from. *)
Lemma parsedOptions_join (opts : list jsstring) :
  Forall normal_option opts ->
  CheckboxGroupPropertiesComponent.parsedOptions (join [comma; space] opts) = opts.
Proof.
  intros Hall. destruct opts as [|x rest]; [reflexivity|].
  unfold CheckboxGroupPropertiesComponent.parsedOptions.
  rewrite split_join_comma_space
    by (eapply Forall_impl; [exact Hall | now intros o (_ & _ & Ho)]).
  rewrite map_cons, map_map.
  assert (Htrim : x :: rest = trim x :: map (fun o => trim (space :: o)) rest).
  { inversion Hall as [|? ? (Hx & _) Hrest]; subst. rewrite Hx. f_equal.
    clear Hall Hx. induction Hrest as [|o rest' (Ho & _) _ IH]; [reflexivity|].
    simpl. rewrite <- IH. now rewrite trim_white_space_cons, Ho. }
  rewrite <- Htrim. apply filter_all.
  eapply Forall_impl; [exact Hall|]. intros o (_ & Ho & _). destruct o; [contradiction|].
  simpl. lia.
Qed.

Lemma finalOptions_join (opts : list jsstring) :
  opts <> [] -> Forall normal_option opts ->
  CheckboxGroupPropertiesComponent.finalOptions (join [comma; space] opts) = opts.
Proof.
  intros Hne Hall. unfold CheckboxGroupPropertiesComponent.finalOptions.
  rewrite parsedOptions_join by exact Hall. now destruct opts.
Qed.

Lemma normal_option_storable (opt : jsstring) : normal_option opt -> storable opt.
Proof.
  intros (Htrim & Hne & Hcomma). split; [|exact Hcomma].
  rewrite <- truthy_trim, Htrim. now destruct opt.
Qed.

(** X8: whatever is typed into the options input, the options that the
    editor hands to the form on blur are never empty, each of them is
    trimmed, not empty and free of commas, and the [options] field of the
    schema accepts them. *)
Theorem options_editor_output_valid (st : CheckboxGroupPropertiesComponent.EditorState) :
  let final := CheckboxGroupPropertiesComponent.options
                 (CheckboxGroupPropertiesComponent.onBlur st) in
  final <> [] /\
  Forall normal_option final /\
  is_Some (safeParse (z.min 1 (z.array z.string_)) (JArray (JString <$> final))).
Proof.
  cbv zeta. change (CheckboxGroupPropertiesComponent.options
                      (CheckboxGroupPropertiesComponent.onBlur st))
    with (CheckboxGroupPropertiesComponent.finalOptions
            (CheckboxGroupPropertiesComponent.optionsInput st)).
  destruct (finalOptions_normal (CheckboxGroupPropertiesComponent.optionsInput st))
    as [Hne Hall].
  split; [exact Hne|]. split; [exact Hall|].
  apply (safeParse_string_array_spec 1). eexists. split; [reflexivity|].
  destruct (CheckboxGroupPropertiesComponent.finalOptions _); [contradiction | simpl; lia].
Qed.

(** X9: the blur handler normalises: applied to its own result it changes
    nothing, neither the options nor the text shown in the input. *)
Theorem options_editor_onBlur_idempotent (st : CheckboxGroupPropertiesComponent.EditorState) :
  CheckboxGroupPropertiesComponent.onBlur (CheckboxGroupPropertiesComponent.onBlur st)
  = CheckboxGroupPropertiesComponent.onBlur st.
Proof.
  unfold CheckboxGroupPropertiesComponent.onBlur. simpl.
  destruct (finalOptions_normal (CheckboxGroupPropertiesComponent.optionsInput st))
    as [Hne Hall].
  now rewrite finalOptions_join.
Qed.

(** X10: options that went through the editor can always be stored and
    restored.  Any selection made of options produced by the editor's blur
    handler is read back unchanged from its comma-separated encoding. *)
Theorem editor_options_round_trip (optionsInput : jsstring) (selected : list jsstring) :
  Forall (fun o => In o (CheckboxGroupPropertiesComponent.finalOptions optionsInput))
    selected ->
  CheckboxGroupFormComponent.initialSelected (Some (join [comma] selected)) = selected.
Proof.
  intros Hsel. destruct selected as [|x rest]; [reflexivity|].
  destruct (finalOptions_normal optionsInput) as [_ Hall]. rewrite Forall_forall in Hall.
  assert (Hst : Forall storable (x :: rest)).
  { eapply Forall_impl; [exact Hsel|]. intros o Ho.
    apply normal_option_storable, Hall. now apply list_elem_of_In. }
  unfold CheckboxGroupFormComponent.initialSelected.
  assert (Hx : has_non_white_space x = true) by (inversion Hst as [|? ? [? _] _]; assumption).
  assert (Htruthy : truthy_string (join [comma] (x :: rest)) = true).
  { pose proof (non_blank_not_empty _ (join_head_non_blank [comma] x rest Hx)) as Hne.
    now destruct (join [comma] (x :: rest)). }
  rewrite Htruthy, split_join; [|discriminate|].
  - apply filter_all. eapply Forall_impl; [exact Hst|].
    intros o [Ho _]. now rewrite truthy_trim.
  - eapply Forall_impl; [exact Hst|]. now intros o [_ Ho].
Qed.

Lemma editor_options_round_trip_witness :
  Forall (fun o => In o (CheckboxGroupPropertiesComponent.finalOptions (js " red ,, blue,green")))
    [js "green"; js "red"] /\
  CheckboxGroupFormComponent.initialSelected (Some (join [comma] [js "green"; js "red"]))
  = [js "green"; js "red"].
Proof.
  assert (H : Forall (fun o => In o (CheckboxGroupPropertiesComponent.finalOptions
                                       (js " red ,, blue,green")))
                [js "green"; js "red"]).
  { constructor; [right; right; now left|]. constructor; [now left | constructor]. }
  split; [exact H|].
  apply (editor_options_round_trip (js " red ,, blue,green") [js "green"; js "red"] H).
Defined.

(** X11: opening the editor on options that are trimmed, not empty and free
    of commas, and leaving the input without typing, changes nothing: the
    options and the text shown stay as they were on the first render. *)
Theorem options_editor_blur_without_typing (configured : list jsstring) :
  configured <> [] -> Forall normal_option configured ->
  CheckboxGroupPropertiesComponent.onBlur (CheckboxGroupPropertiesComponent.mount configured)
  = CheckboxGroupPropertiesComponent.mount configured.
Proof.
  intros Hne Hall. unfold CheckboxGroupPropertiesComponent.onBlur,
    CheckboxGroupPropertiesComponent.mount. simpl.
  now rewrite finalOptions_join.
Qed.

Lemma options_editor_blur_without_typing_witness :
  [js "Option 1"; js "Option 2"; js "Option 3"] <> [] /\
  Forall normal_option [js "Option 1"; js "Option 2"; js "Option 3"] /\
  CheckboxGroupPropertiesComponent.onBlur
    (CheckboxGroupPropertiesComponent.mount [js "Option 1"; js "Option 2"; js "Option 3"])
  = CheckboxGroupPropertiesComponent.mount [js "Option 1"; js "Option 2"; js "Option 3"].
Proof.
  assert (Hne : [js "Option 1"; js "Option 2"; js "Option 3"] <> []) by discriminate.
  assert (Hall : Forall normal_option [js "Option 1"; js "Option 2"; js "Option 3"]).
  { repeat constructor; try reflexivity; try discriminate;
      intros H; vm_compute in H; intuition discriminate. }
  split; [exact Hne|]. split; [exact Hall|].
  apply (options_editor_blur_without_typing _ Hne Hall).
Defined.

(** ** Edge and error behaviour of the value validators *)

(** X12: a field whose configuration does not say it is required never
    blocks a submission.  When [required] is falsy (false, but also a missing
    key, null, 0 or the empty string) both validators accept every submitted
    value of every kind, [undefined] included, without throwing. *)
Theorem validate_optional_accepts_all (formElement : FormElementInstance)
    (props : list (string * JsValue)) (currentValue : JsValue) (s : State) :
  heap s !! inst_extraAttributes formElement = Some (JObject props) ->
  ToBoolean (get props "required") = false ->
  Checkbox.validate formElement currentValue s = (Normal true, s) /\
  CheckboxGroup.validate formElement currentValue s = (Normal true, s).
Proof.
  intros H Hreq. split.
  - now rewrite (checkbox_validate_eq _ _ _ _ H), Hreq.
  - unfold CheckboxGroup.validate. rewrite (read_required _ _ _ _ H). now rewrite Hreq.
Qed.

Lemma validate_optional_accepts_all_witness :
  heap (with_new_object initial_state (JObject [("label", JString (js "No required key"))]))
    !! inst_extraAttributes (with_extraAttributes field_A 2)
  = Some (JObject [("label", JString (js "No required key"))]) /\
  ToBoolean (get [("label", JString (js "No required key"))] "required") = false /\
  Checkbox.validate (with_extraAttributes field_A 2) JUndefined
    (with_new_object initial_state (JObject [("label", JString (js "No required key"))]))
  = (Normal true,
     with_new_object initial_state (JObject [("label", JString (js "No required key"))])) /\
  CheckboxGroup.validate (with_extraAttributes field_A 2) JUndefined
    (with_new_object initial_state (JObject [("label", JString (js "No required key"))]))
  = (Normal true,
     with_new_object initial_state (JObject [("label", JString (js "No required key"))])).
Proof.
  split; [reflexivity|]. split; [reflexivity|].
  apply (validate_optional_accepts_all (with_extraAttributes field_A 2)
           [("label", JString (js "No required key"))] JUndefined
           (with_new_object initial_state (JObject [("label", JString (js "No required key"))])));
    reflexivity.
Defined.

(** X13: a required checkbox group is only defined on strings.  On a string
    it returns whether the string has a character that is not white space; on
    a value of any other kind (undefined, null, a boolean, a number, an
    array, an object) it throws a [TypeError].  The state is untouched either
    way. *)
Theorem group_required_throws_on_non_string (formElement : FormElementInstance)
    (props : list (string * JsValue)) (currentValue : JsValue) (s : State) :
  heap s !! inst_extraAttributes formElement = Some (JObject props) ->
  ToBoolean (get props "required") = true ->
  CheckboxGroup.validate formElement currentValue s =
    match currentValue with
    | JString value => (Normal (has_non_white_space value), s)
    | _ => (Throw TypeError, s)
    end.
Proof.
  intros H Hreq. destruct currentValue;
    try (unfold CheckboxGroup.validate; rewrite (read_required _ _ _ _ H), Hreq; reflexivity).
  now rewrite (group_validate_string _ _ _ _ H), Hreq.
Qed.

Lemma group_required_throws_on_non_string_witness :
  heap example_state !! inst_extraAttributes field_B = Some (JObject required_group_props) /\
  ToBoolean (get required_group_props "required") = true /\
  CheckboxGroup.validate field_B (JArray [JString (js "Option 1")]) example_state
    = (Throw TypeError, example_state).
Proof.
  split; [reflexivity|]. split; [reflexivity|].
  apply (group_required_throws_on_non_string field_B required_group_props
           (JArray [JString (js "Option 1")]) example_state); reflexivity.
Defined.

(** ** Editing, then validating *)

Lemma heap_after_commit (upd : UpdateElement) (id : jsstring) (element : FormElementInstance)
    (data : JsValue) (s : State) :
  (forall id' element' st, heap (upd id' element' st).2 = heap st) ->
  heap (upd id element (with_new_object s data)).2 !! fresh (dom (heap s)) = Some data.
Proof. intros Hupd. rewrite Hupd. apply lookup_insert_eq. Qed.

(** X14: the validators read what the editor committed.  After the
    properties editor has accepted edited values, the instance it handed to
    [updateElement] validates, in the resulting state, according to the
    edited [required]: the single checkbox accepts only "true" when it is
    true and everything when it is false; the group accepts a string with a
    character that is not white space when it is true and every string when
    it is false (provided [updateElement] itself leaves the heap alone). *)
Theorem validate_after_commit (upd : UpdateElement) (element : FormElementInstance)
    (props : list (string * JsValue)) (currentValue : JsValue) (value : jsstring)
    (s : State) :
  (forall id element' st, heap (upd id element' st).2 = heap st) ->
  (is_Some (safeParse Checkbox.propertiesSchema (JObject props)) ->
   let s' := (Checkbox.onBlur upd element (JObject props) s).2 in
   Checkbox.validate (with_extraAttributes element (fresh (dom (heap s)))) currentValue s'
   = (Normal (if ToBoolean (get props "required")
              then strict_equals_string currentValue (js "true") else true), s')) /\
  (is_Some (safeParse CheckboxGroup.propertiesSchema (JObject props)) ->
   let s' := (CheckboxGroup.onBlur upd element (JObject props) s).2 in
   CheckboxGroup.validate (with_extraAttributes element (fresh (dom (heap s))))
     (JString value) s'
   = (Normal (if ToBoolean (get props "required")
              then has_non_white_space value else true), s')).
Proof.
  intros Hupd. split.
  - intros [data Hdata]. cbv zeta.
    rewrite (checkbox_onBlur_accepted _ _ _ _ _ Hdata).
    set (committed := with_extraAttributes element (fresh (dom (heap s)))).
    pose proof (heap_after_commit upd (inst_id element) committed data s Hupd) as Hheap.
    destruct (checkbox_parse_output _ _ Hdata) as (props' & [= <-] & Hd & _).
    rewrite Hd in Hheap |- *.
    now rewrite (checkbox_validate_eq committed _ currentValue _ Hheap).
  - intros [data Hdata]. cbv zeta.
    rewrite (group_onBlur_accepted _ _ _ _ _ Hdata).
    set (committed := with_extraAttributes element (fresh (dom (heap s)))).
    pose proof (heap_after_commit upd (inst_id element) committed data s Hupd) as Hheap.
    destruct (group_parse_output _ _ Hdata) as (props' & [= <-] & Hd & _).
    rewrite Hd in Hheap |- *.
    now rewrite (group_validate_string committed _ value _ Hheap).
Qed.

Lemma validate_after_commit_witness :
  (forall id element' st, heap (updateElement id element' st).2 = heap st) /\
  is_Some (safeParse Checkbox.propertiesSchema edited_values) /\
  Checkbox.validate (with_extraAttributes field_A (fresh (dom (heap example_state))))
    (JString (js "false")) (Checkbox.onBlur updateElement field_A edited_values example_state).2
  = (Normal true, (Checkbox.onBlur updateElement field_A edited_values example_state).2).
Proof.
  split; [exact updateElement_heap|].
  assert (H : is_Some (safeParse Checkbox.propertiesSchema edited_values))
    by (eexists; reflexivity).
  split; [exact H|].
  destruct (validate_after_commit updateElement field_A
              [ ("label", JString (js "Agree")); ("helperText", JString (js ""));
                ("required", JBool false); ("extra", JNumber 1) ]
              (JString (js "false")) [] example_state updateElement_heap) as [Hsingle _].
  exact (Hsingle H).
Defined.

(** ** [lib/pdfMakeClient.ts] *)

Lemma optional_get_normal (v : JsValue) (key : string) (s : State) :
  exists x, pdfMakeClient.optional_get v key s = (Normal x, s).
Proof. destruct v; simpl; eauto. Qed.

Lemma nullish_object_normal (v : JsValue) (props : list (string * JsValue)) (key : string)
    (s : State) :
  exists y, pdfMakeClient.nullish v (get_property (JObject props) key) s = (Normal y, s).
Proof. destruct v; simpl; eauto. Qed.

Lemma nullish_default_defined (v fallback : JsValue) (s : State) :
  fallback <> JUndefined -> fallback <> JNull ->
  exists z, pdfMakeClient.nullish v (ret fallback) s = (Normal z, s) /\
            z <> JUndefined /\ z <> JNull.
Proof.
  intros H1 H2. destruct v; simpl; eexists; (split; [reflexivity|]);
    first [ split; discriminate | split; assumption ].
Qed.

(** X15: the virtual file system assigned to pdfMake is always there.
    Whatever properties the fonts module has, computing
    [fonts.pdfMake?.vfs ?? fonts.vfs ?? {}] does not throw and its value is
    never undefined or null; and when the fonts module has neither a
    [pdfMake] nor a [vfs] property the value is the empty object. *)
Theorem vfs_always_defined (props : list (string * JsValue)) (s : State) :
  (exists v, pdfMakeClient.vfs (JObject props) s = (Normal v, s) /\
             v <> JUndefined /\ v <> JNull) /\
  (get props "pdfMake" = JUndefined -> get props "vfs" = JUndefined ->
   pdfMakeClient.vfs (JObject props) s = (Normal (JObject []), s)).
Proof.
  unfold pdfMakeClient.vfs. split.
  - rewrite (bind_normal _ _ (get props "pdfMake") s s) by reflexivity.
    destruct (optional_get_normal (get props "pdfMake") "vfs" s) as [x Hx].
    rewrite (bind_normal _ _ _ _ _ Hx).
    destruct (nullish_object_normal x props "vfs" s) as [y Hy].
    rewrite (bind_normal _ _ _ _ _ Hy).
    apply nullish_default_defined; discriminate.
  - intros H1 H2. unfold bind, get_property, ret. now rewrite H1, H2.
Qed.

Lemma vfs_always_defined_witness :
  get [("default", JObject [])] "pdfMake" = JUndefined /\
  get [("default", JObject [])] "vfs" = JUndefined /\
  pdfMakeClient.vfs (JObject [("default", JObject [])]) initial_state
    = (Normal (JObject []), initial_state).
Proof.
  split; [reflexivity|]. split; [reflexivity|].
  apply (proj2 (vfs_always_defined [("default", JObject [])] initial_state)); reflexivity.
Defined.
